(** * The front-end build configuration and the test bootstrap script

    This development embeds three source files of the UI package:

    - [src/ui/vite.config.js], the bundler / dev-server configuration;
    - a second copy of that configuration found elsewhere in the tree;
    - the test bootstrap script named by [test.setupFiles], which installs
      mocks of browser globals.

    The configuration files are object literals: they are embedded as trees
    of literal values read by field path.  The bootstrap script mutates the
    global object: it is embedded in a state-and-exception monad over a heap
    of JavaScript objects. *)

From stdpp Require Import gmap strings list fin_maps relations.
From Stdlib Require Import ZArith.

Open Scope string_scope.
Open Scope list_scope.
Set Warnings "-register-all".

(** ** Part I: configuration records *)

Module Config.

(** Values that occur in the configuration literals.  [JCall] stands for the
    result of calling an imported function ([react()]); its value is produced
    by the plugin package and is kept symbolic. *)
Inductive json : Type :=
| JNum (n : Z)
| JBool (b : bool)
| JStr (s : string)
| JRegex (source : string)
| JArr (items : list json)
| JObj (fields : list (string * json))
| JCall (callee : string) (args : list json).

(** Property lookup on an object literal.  A key written twice takes the
    value written last, as in JavaScript. *)
Fixpoint lookup_field (k : string) (fs : list (string * json)) : option json :=
  match fs with
  | [] => None
  | (k', v) :: rest =>
      match lookup_field k rest with
      | Some w => Some w
      | None => if String.eqb k k' then Some v else None
      end
  end.

(** [get_path c ["a"; "b"]] is [c.a.b]; [None] stands for [undefined]. *)
Fixpoint get_path (j : json) (p : list string) : option json :=
  match p with
  | [] => Some j
  | k :: p' =>
      match j with
      | JObj fs =>
          match lookup_field k fs with
          | Some j' => get_path j' p'
          | None => None
          end
      | _ => None
      end
  end.

(** A leaf is any value that is not an object literal: numbers, booleans,
    strings, regular expressions, arrays and plugin instances. *)
Definition is_leaf (j : json) : bool :=
  match j with
  | JObj _ => false
  | _ => true
  end.

(** All paths of a record that end in a leaf, with the leaf. *)
Fixpoint leaves (j : json) : list (list string * json) :=
  match j with
  | JObj fs =>
      (fix go (fs : list (string * json)) : list (list string * json) :=
         match fs with
         | [] => []
         | (k, j') :: rest =>
             map (fun pv => (k :: fst pv, snd pv)) (leaves j') ++ go rest
         end) fs
  | _ => [([], j)]
  end.

(** [defineConfig] of the bundler package is the identity on a
    configuration object (it exists for editor type hints). *)
Definition defineConfig (c : json) : json := c.

(** [src/ui/vite.config.js], lines 6-51. *)
Definition ui_vite_config : json :=
  defineConfig (JObj [
    ("plugins", JArr [JCall "react" []]);
    ("esbuild", JObj [
       ("loader", JStr "jsx");
       ("include", JRegex "src\/.*\.[jt]sx?$");
       ("exclude", JArr [])
     ]);
    ("optimizeDeps", JObj [
       ("include", JArr [JStr "aws-amplify"; JStr "@aws-amplify/ui-react"; JStr "buffer"]);
       ("esbuildOptions", JObj [
          ("loader", JObj [
             (".js", JStr "jsx")
           ])
        ])
     ]);
    ("server", JObj [
       ("port", JNum 3000);
       ("host", JBool true);
       ("open", JBool true)
     ]);
    ("build", JObj [
       ("outDir", JStr "build");
       ("sourcemap", JBool true)
     ]);
    ("define", JObj [
       ("global", JStr "globalThis")
     ]);
    ("resolve", JObj [
       ("alias", JObj [
          ("./runtimeConfig", JStr "./runtimeConfig.browser");
          ("buffer", JStr "buffer")
        ])
     ]);
    ("test", JObj [
       ("globals", JBool true);
       ("environment", JStr "jsdom");
       ("setupFiles", JStr "./src/setupTests.js");
       ("css", JBool true);
       ("server", JObj [
          ("deps", JObj [
             ("external", JArr [JStr "maplibre-gl"])
           ])
        ])
     ])
  ]).

(** The second copy of the configuration file, lines 6-40. *)
Definition copy_vite_config : json :=
  defineConfig (JObj [
    ("plugins", JArr [JCall "react" []]);
    ("server", JObj [
       ("port", JNum 3000);
       ("host", JBool true);
       ("open", JBool true)
     ]);
    ("build", JObj [
       ("outDir", JStr "build");
       ("sourcemap", JBool true)
     ]);
    ("define", JObj [
       ("global", JStr "globalThis")
     ]);
    ("resolve", JObj [
       ("alias", JObj [
          ("./runtimeConfig", JStr "./runtimeConfig.browser");
          ("buffer", JStr "buffer")
        ])
     ]);
    ("optimizeDeps", JObj [
       ("include", JArr [JStr "aws-amplify"; JStr "@aws-amplify/ui-react"; JStr "buffer"])
     ]);
    ("test", JObj [
       ("globals", JBool true);
       ("environment", JStr "jsdom");
       ("setupFiles", JStr "./src/setupTests.js");
       ("css", JBool true);
       ("server", JObj [
          ("deps", JObj [
             ("external", JArr [JStr "maplibre-gl"])
           ])
        ])
     ])
  ]).

(** The values the specification lists for the configuration record. *)
Definition has_listed_values (c : json) : Prop :=
  get_path c ["server"; "port"] = Some (JNum 3000) /\
  get_path c ["server"; "host"] = Some (JBool true) /\
  get_path c ["server"; "open"] = Some (JBool true) /\
  get_path c ["build"; "outDir"] = Some (JStr "build") /\
  get_path c ["build"; "sourcemap"] = Some (JBool true) /\
  get_path c ["define"; "global"] = Some (JStr "globalThis") /\
  get_path c ["resolve"; "alias"] =
    Some (JObj [("./runtimeConfig", JStr "./runtimeConfig.browser");
                ("buffer", JStr "buffer")]) /\
  get_path c ["optimizeDeps"; "include"] =
    Some (JArr [JStr "aws-amplify"; JStr "@aws-amplify/ui-react"; JStr "buffer"]) /\
  get_path c ["test"; "globals"] = Some (JBool true) /\
  get_path c ["test"; "environment"] = Some (JStr "jsdom") /\
  get_path c ["test"; "setupFiles"] = Some (JStr "./src/setupTests.js") /\
  get_path c ["test"; "css"] = Some (JBool true) /\
  get_path c ["test"; "server"; "deps"; "external"] =
    Some (JArr [JStr "maplibre-gl"]).

(** Two records that agree at every field path. *)
Definition same_at_every_path (a b : json) : Prop :=
  forall p, get_path a p = get_path b p.

(** [p] lies at or below the field path [q]. *)
Definition under (q p : list string) : Prop := q `prefix_of` p.

(** No object literal of the record, at any depth below its fields, writes
    a key twice. *)
Fixpoint distinct_keys (j : json) : bool :=
  match j with
  | JObj fs =>
      (fix go (fs : list (string * json)) : bool :=
         match fs with
         | [] => true
         | (k, j') :: rest =>
             negb (existsb (String.eqb k) (map fst rest))
             && distinct_keys j' && go rest
         end) fs
  | _ => true
  end.

End Config.

(** ** Part II: the test bootstrap script *)

Module Js.

(** *** Values and heap

    Objects live on a heap and are named by their location, so that two
    references to one object see each other's writes.  New objects are
    appended; the global object is the object at location [0]. *)

Abbreviation loc := nat.

Inductive value : Type :=
| VUndefined
| VNull
| VBool (b : bool)
| VNum (n : Z)
| VStr (s : string)
| VRef (l : loc).

(** The arrow functions written in the script, named by their line. *)
Inductive closure : Type :=
| arrow_12   (* () => 'mocked-url' *)
| arrow_16   (* () => ({ observe: vi.fn(), unobserve: vi.fn(), disconnect: vi.fn() }) *)
| arrow_23.  (* the same literal, for IntersectionObserver *)

(** What a mock function made by [vi.fn] carries: its implementation, if
    any, and its record of calls ([mock.calls], [mock.results]).  The
    library tracks more per call ([mock.contexts], [mock.instances],
    [mock.invocationCallOrder], numbered across all mocks); that tracking
    is left out here, and no statement below speaks about it. *)
Record mock_state : Type := MockState {
  impl : option closure;
  calls : list (list value);
  results : list value
}.

(** An object is either a mock function or anything else.  [Ordinary]
    covers plain objects and the objects of the host environment (such as
    [URL]), of which the script only writes properties. *)
Inductive kind : Type :=
| Ordinary
| Mock (m : mock_state).

(** An object is a table of own data properties; a mock function is an
    object too.  Every property can be written: prototypes, accessors,
    read-only properties and frozen objects are not modelled, so a write
    to an object of the environment that would throw for one of these
    reasons is outside this development. *)
Record object : Type := Object {
  okind : kind;
  props : gmap string value
}.

Abbreviation state := (list object).

Inductive exn : Type :=
| TypeError (msg : string)
| ReferenceError (msg : string).

(** *** The monad of script evaluation: state passing with exceptions *)

Inductive outcome (A : Type) : Type :=
| Returns (a : A) (s : state)
| Throws (e : exn).
Arguments Returns {A} a s.
Arguments Throws {A} e.

Definition M (A : Type) : Type := state -> outcome A.

Definition ret {A} (a : A) : M A := fun s => Returns a s.

Definition bind {A B} (c : M A) (k : A -> M B) : M B :=
  fun s =>
    match c s with
    | Returns a s' => k a s'
    | Throws e => Throws e
    end.

Notation "'let*' x ':=' c 'in' k" := (bind c (fun x => k))
  (at level 10, x name, c at level 100, k at level 200).
Notation "c ';;' k" := (bind c (fun _ => k))
  (at level 100, k at level 200, right associativity).

(** *** Reading the heap *)

Definition own_prop (s : state) (l : loc) (name : string) : value :=
  match s !! l with
  | Some o => default VUndefined (props o !! name)
  | None => VUndefined
  end.

(** [v.name] for a value already evaluated; a primitive has no own
    properties. *)
Definition prop_of (s : state) (v : value) (name : string) : value :=
  match v with
  | VRef l => own_prop s l name
  | _ => VUndefined
  end.

Definition kind_at (s : state) (l : loc) : option kind := okind <$> s !! l.

(** The mock record of [v], when [v] is a mock function. *)
Definition mock_at (s : state) (v : value) : option mock_state :=
  match v with
  | VRef l =>
      match kind_at s l with
      | Some (Mock m) => Some m
      | _ => None
      end
  | _ => None
  end.

(** *** Primitive operations *)

Definition global : loc := 0.

(** [global.name]: a read of an own property of the global object. *)
Definition get_global (name : string) : M value :=
  fun s =>
    match s !! global with
    | Some o => Returns (default VUndefined (props o !! name)) s
    | None => Throws (ReferenceError "global is not defined")
    end.

Definition with_prop (o : object) (name : string) (v : value) : object :=
  Object (okind o) (<[name := v]> (props o)).

(** [target.name = v].  The script is module code, hence strict: a write
    to [undefined], [null] or a primitive throws. *)
Definition set_prop (target : value) (name : string) (v : value) : M unit :=
  fun s =>
    match target with
    | VRef l =>
        match s !! l with
        | Some o => Returns tt (<[l := with_prop o name v]> s)
        | None => Throws (TypeError "Cannot set properties of a missing object")
        end
    | _ => Throws (TypeError "Cannot set properties of a non-object")
    end.

Definition alloc (o : object) : M value :=
  fun s => Returns (VRef (length s)) (s ++ [o]).

(** *** The mock library

    [vi.fn] and [mockImplementation] are imported from the test runner's
    package.  They are modelled by their documented contract: [vi.fn(impl)]
    makes a new mock function with that implementation and an empty call
    record; [mockImplementation(f)] replaces the implementation and returns
    the mock; calling a mock appends the arguments to [mock.calls], runs
    the implementation ([undefined] when there is none) and appends the
    result to [mock.results]. *)

Definition fresh_mock (i : option closure) : object :=
  Object (Mock (MockState i [] [])) ∅.

Definition vi_fn (i : option closure) : M value := alloc (fresh_mock i).

Definition mockImplementation (f : value) (c : closure) : M value :=
  fun s =>
    match f with
    | VRef l =>
        match s !! l with
        | Some (Object (Mock m) ps) =>
            Returns f (<[l := Object (Mock (MockState (Some c) (calls m) (results m))) ps]> s)
        | _ => Throws (TypeError "mockImplementation is not a function")
        end
    | _ => Throws (TypeError "mockImplementation is not a function")
    end.

Definition log_call (args : list value) (o : object) : object :=
  match okind o with
  | Mock m => Object (Mock (MockState (impl m) (calls m ++ [args]) (results m))) (props o)
  | Ordinary => o
  end.

Definition log_result (v : value) (o : object) : object :=
  match okind o with
  | Mock m => Object (Mock (MockState (impl m) (calls m) (results m ++ [v]))) (props o)
  | Ordinary => o
  end.

Definition update (l : loc) (f : object -> object) : M unit :=
  fun s =>
    match s !! l with
    | Some o => Returns tt (<[l := f o]> s)
    | None => Throws (ReferenceError "missing object")
    end.

(** *** The function bodies of the script *)

(** Lines 16-20 and 23-27: the object literal
    [{ observe: vi.fn(), unobserve: vi.fn(), disconnect: vi.fn() }]. *)
Definition observer_literal : M value :=
  let* o := alloc (Object Ordinary ∅) in
  let* f := vi_fn None in
  set_prop o "observe" f ;;
  let* f := vi_fn None in
  set_prop o "unobserve" f ;;
  let* f := vi_fn None in
  set_prop o "disconnect" f ;;
  ret o.

Definition apply_closure (c : closure) (args : list value) : M value :=
  match c with
  | arrow_12 => ret (VStr "mocked-url")
  | arrow_16 => observer_literal
  | arrow_23 => observer_literal
  end.

Definition run_impl (i : option closure) (args : list value) : M value :=
  match i with
  | Some c => apply_closure c args
  | None => ret VUndefined
  end.

(** [f(args)].  The functions called in this development are mocks; a
    call of a value that is not a function throws, and the functions of the
    host environment are not given a behaviour here. *)
Definition call (f : value) (args : list value) : M value :=
  fun s =>
    match f with
    | VRef l =>
        match mock_at s f with
        | Some m =>
            (update l (log_call args) ;;
             let* v := run_impl (impl m) args in
             update l (log_result v) ;;
             ret v) s
        | None => Throws (TypeError "not a function")
        end
    | _ => Throws (TypeError "not a function")
    end.

Definition is_ref (v : value) : bool :=
  match v with
  | VRef _ => true
  | _ => false
  end.

(** Running a mock as a constructor: a new instance is made, the
    implementation runs, and an object it returns takes the place of the
    instance. *)
Definition instantiate (f : value) (args : list value) : M value :=
  fun s =>
    match f with
    | VRef l =>
        match mock_at s f with
        | Some m =>
            (let* this := alloc (Object Ordinary ∅) in
             update l (log_call args) ;;
             let* r := run_impl (impl m) args in
             let v := if is_ref r then r else this in
             update l (log_result v) ;;
             ret v) s
        | None => Throws (TypeError "not a constructor")
        end
    | _ => Throws (TypeError "not a constructor")
    end.

(** Releases of the mock library differ on [new] applied to a mock whose
    implementation is an arrow function, which is what every
    implementation in the script is.  Up to the third major release the
    mock runs the implementation and [new] gives what it returns; from the
    fourth on the mock constructs its implementation, an arrow function
    cannot be constructed, and [new] throws a TypeError.  The sources do
    not fix the release, so [new] takes it as a parameter.  A throw ends
    the computation without a state, so what a mock records of a
    construction that throws is not kept. *)
Inductive release : Type :=
| arrows_constructible
| arrows_not_constructible.

(** [new f(args)] under the release [r]. *)
Definition construct (r : release) (f : value) (args : list value) : M value :=
  fun s =>
    match mock_at s f with
    | Some m =>
        match r, impl m with
        | arrows_not_constructible, Some _ =>
            Throws (TypeError "implementation is not a constructor")
        | _, _ => instantiate f args s
        end
    | None => Throws (TypeError "not a constructor")
    end.

(** *** The script, lines 12-27 *)

Definition setupTests : M unit :=
  (* global.URL.createObjectURL = vi.fn(() => 'mocked-url'); *)
  let* url := get_global "URL" in
  let* f := vi_fn (Some arrow_12) in
  set_prop url "createObjectURL" f ;;
  (* global.URL.revokeObjectURL = vi.fn(); *)
  let* url := get_global "URL" in
  let* f := vi_fn None in
  set_prop url "revokeObjectURL" f ;;
  (* global.ResizeObserver = vi.fn().mockImplementation(() => ({ ... })); *)
  let* f := vi_fn None in
  let* f := mockImplementation f arrow_16 in
  set_prop (VRef global) "ResizeObserver" f ;;
  (* global.IntersectionObserver = vi.fn().mockImplementation(() => ({ ... })); *)
  let* f := vi_fn None in
  let* f := mockImplementation f arrow_23 in
  set_prop (VRef global) "IntersectionObserver" f.

(** *** What the script leaves behind *)

(** [global.URL.name]. *)
Definition url_member (s : state) (name : string) : value :=
  prop_of s (own_prop s global "URL") name.

(** [v] is a mock function whose implementation is [i]. *)
Definition bound_mock (s : state) (v : value) (i : option closure) : Prop :=
  impl <$> mock_at s v = Some i.

Record installed (s : state) : Prop := Installed {
  inst_create : bound_mock s (url_member s "createObjectURL") (Some arrow_12);
  inst_revoke : bound_mock s (url_member s "revokeObjectURL") None;
  inst_resize : bound_mock s (own_prop s global "ResizeObserver") (Some arrow_16);
  inst_intersection :
    bound_mock s (own_prop s global "IntersectionObserver") (Some arrow_23)
}.

(** The properties the script assigns: two of the object [global.URL]
    (at location [lu]) and two of the global object. *)
Definition overwritten (lu : loc) (l : loc) (p : string) : Prop :=
  (l = lu /\ (p = "createObjectURL" \/ p = "revokeObjectURL")) \/
  (l = global /\ (p = "ResizeObserver" \/ p = "IntersectionObserver")).

(** What a run of the script does to a state [s]: four new mocks at the
    end of the heap, four properties bound to them, nothing else touched. *)
Record script_effect (lu : loc) (s s' : state) : Prop := ScriptEffect {
  eff_url : own_prop s global "URL" = VRef lu;
  eff_url_valid : lu <= length s;
  eff_length : length s' = length s + 4;
  eff_url_kept : own_prop s' global "URL" = VRef lu;
  eff_create : own_prop s' lu "createObjectURL" = VRef (length s);
  eff_revoke : own_prop s' lu "revokeObjectURL" = VRef (length s + 1);
  eff_resize : own_prop s' global "ResizeObserver" = VRef (length s + 2);
  eff_intersection : own_prop s' global "IntersectionObserver" = VRef (length s + 3);
  eff_mock_12 : kind_at s' (length s) = Some (Mock (MockState (Some arrow_12) [] []));
  eff_mock_13 : kind_at s' (length s + 1) = Some (Mock (MockState None [] []));
  eff_mock_16 : kind_at s' (length s + 2) = Some (Mock (MockState (Some arrow_16) [] []));
  eff_mock_23 : kind_at s' (length s + 3) = Some (Mock (MockState (Some arrow_23) [] []));
  eff_frame : forall l p, ~ overwritten lu l p -> own_prop s' l p = own_prop s l p;
  eff_kinds : forall l, l < length s -> kind_at s' l = kind_at s l
}.

Definition observer_methods : list string := ["observe"; "unobserve"; "disconnect"].

(** An observer stand-in: an ordinary object whose own properties are the
    three methods, each a mock function without implementation. *)
Record observer_standin (s : state) (v : value) : Prop := ObserverStandin {
  obs_object : exists l, v = VRef l /\ kind_at s l = Some Ordinary;
  obs_methods : forall name, name ∈ observer_methods ->
                  bound_mock s (prop_of s v name) None;
  obs_only : forall name, name ∉ observer_methods -> prop_of s v name = VUndefined
}.

(** A kind without its call record. *)
Definition erase (k : kind) : kind :=
  match k with
  | Ordinary => Ordinary
  | Mock m => Mock (MockState (impl m) [] [])
  end.

Definition shape_at (s : state) (l : loc) : option kind := erase <$> kind_at s l.

(** [s'] is [s] after [l.name = vi.fn(i)]: one new mock, one property
    written. *)
Record installs (l : loc) (name : string) (i : option closure) (s s' : state)
  : Prop := Installs {
  ins_length : length s' = S (length s);
  ins_target : l <= length s;
  ins_bound : own_prop s' l name = VRef (length s);
  ins_props : forall l' p, l' <> l \/ p <> name -> own_prop s' l' p = own_prop s l' p;
  ins_new : kind_at s' (length s) = Some (Mock (MockState i [] []));
  ins_old : forall l', l' <> length s -> kind_at s' l' = kind_at s l'
}.

(** [s'] keeps the objects of [s] below location [n]: their properties,
    and what they are up to the call records of mocks. *)
Record extends (n : nat) (s s' : state) : Prop := Extends {
  ext_length : length s <= length s';
  ext_props : forall l p, l < n -> own_prop s' l p = own_prop s l p;
  ext_shape : forall l, l < n -> shape_at s' l = shape_at s l
}.

(** What evaluating the object literal of lines 16-20 does to [s]: the
    new object at the end of the heap, then its three mocks. *)
Record literal_effect (s s' : state) : Prop := LiteralEffect {
  lit_length : length s' = length s + 4;
  lit_observe : own_prop s' (length s) "observe" = VRef (length s + 1);
  lit_unobserve : own_prop s' (length s) "unobserve" = VRef (length s + 2);
  lit_disconnect : own_prop s' (length s) "disconnect" = VRef (length s + 3);
  lit_only : forall p, p ∉ observer_methods -> own_prop s' (length s) p = VUndefined;
  lit_object : kind_at s' (length s) = Some Ordinary;
  lit_mock_1 : kind_at s' (length s + 1) = Some (Mock (MockState None [] []));
  lit_mock_2 : kind_at s' (length s + 2) = Some (Mock (MockState None [] []));
  lit_mock_3 : kind_at s' (length s + 3) = Some (Mock (MockState None [] []));
  lit_props : forall l p, l < length s -> own_prop s' l p = own_prop s l p;
  lit_kinds : forall l, l < length s -> kind_at s' l = kind_at s l
}.

(** [s'] is [s] with the kind of the object at [l] replaced by [k]. *)
Record relabels (l : loc) (k : kind) (s s' : state) : Prop := Relabels {
  rel_length : length s' = length s;
  rel_props : forall l' p, own_prop s' l' p = own_prop s l' p;
  rel_self : kind_at s' l = Some k;
  rel_other : forall l', l' <> l -> kind_at s' l' = kind_at s l'
}.

(** One invocation of a function value that returns, by call or by [new]
    under some release. *)
Definition invocation (s s' : state) : Prop :=
  exists f args v,
    call f args s = Returns v s' \/
    exists r, construct r f args s = Returns v s'.

(** [s'] is [s] with one more entry in the call record of the mock [f]:
    the arguments [args] and the result [v]; nothing else of the state
    modelled here differs. *)
Record recorded (f : value) (args : list value) (v : value) (s s' : state) : Prop :=
  Recorded {
    rec_length : length s' = length s;
    rec_props : forall l p, own_prop s' l p = own_prop s l p;
    rec_other : forall l, VRef l <> f -> kind_at s' l = kind_at s l;
    rec_self : exists m, mock_at s f = Some m /\
                 mock_at s' f =
                   Some (MockState (impl m) (calls m ++ [args]) (results m ++ [v]))
  }.

(** An environment in the style of the one the script runs in: a global
    object holding [URL], [document] and [navigator]. *)
Definition sample_env : state :=
  [ Object Ordinary {[ "URL" := VRef 1; "document" := VRef 2; "navigator" := VRef 3 ]};
    Object Ordinary {[ "canParse" := VRef 4; "createObjectURL" := VRef 5 ]};
    Object Ordinary {[ "title" := VStr "" ]};
    Object Ordinary {[ "userAgent" := VStr "jsdom" ]};
    Object Ordinary ∅;
    Object Ordinary ∅ ].


(** A function that returns [undefined] and leaves the state as it found
    it, whatever its arguments. *)
Definition no_op (f : value) (s : state) : Prop :=
  forall args, call f args s = Returns VUndefined s.


(** In the state [s], under the release [r]: [new] on either mocked
    constructor returns, for every argument list, an object whose three
    methods are no-ops. *)
Definition observers_are_no_ops (r : release) (s : state) : Prop :=
  forall name args, name ∈ ["ResizeObserver"; "IntersectionObserver"] ->
    exists o t,
      construct r (own_prop s global name) args s = Returns o t /\
      forall method, method ∈ observer_methods -> no_op (prop_of t o method) t.

(** The state a run leaves, for evaluating examples. *)
Definition state_after {A} (c : M A) (s : state) : state :=
  match c s with
  | Returns _ s' => s'
  | Throws _ => s
  end.

Definition value_of {A} (c : M A) (s : state) : option A :=
  match c s with
  | Returns a _ => Some a
  | Throws _ => None
  end.

(** The sample environment after the script, after one call of
    [URL.createObjectURL], and after one [new ResizeObserver()]. *)
Definition sample_ready : state := state_after setupTests sample_env.

Definition sample_used : state :=
  state_after (call (url_member sample_ready "createObjectURL") [VStr "blob"])
    sample_ready.

Definition sample_observer : option value :=
  value_of (construct arrows_constructible
              (own_prop sample_ready global "ResizeObserver") []) sample_ready.

Definition sample_observed : state :=
  state_after (construct arrows_constructible
                 (own_prop sample_ready global "ResizeObserver") [])
    sample_ready.

Definition sample_observe : value :=
  match sample_observer with
  | Some o => prop_of sample_observed o "observe"
  | None => VUndefined
  end.

(** *** Using the mocks *)

(** One call of [f] for each argument list, in order, as a test body
    makes them. *)
Fixpoint call_each (f : value) (argss : list (list value)) : M unit :=
  match argss with
  | [] => ret tt
  | args :: rest => call f args ;; call_each f rest
  end.

(** [s'] keeps every object of [s] as it was, but for the kind of [f]
    (its call record); objects may have been added. *)
Record touches (f : value) (s s' : state) : Prop := Touches {
  tou_length : length s <= length s';
  tou_props : forall l p, l < length s -> own_prop s' l p = own_prop s l p;
  tou_others : forall l, l < length s -> VRef l <> f -> kind_at s' l = kind_at s l
}.

(** [s'] is [s] after running [f] as a constructor made the observer [o]. *)
Record constructed (f : value) (args : list value) (o : value) (s s' : state)
  : Prop := Constructed {
  con_new : exists l, o = VRef l /\ length s <= l;
  con_standin : observer_standin s' o;
  con_methods : forall name, name ∈ observer_methods ->
      exists n, prop_of s' o name = VRef n /\ length s <= n /\
                mock_at s' (VRef n) = Some (MockState None [] []);
  con_distinct : forall a b, a ∈ observer_methods -> b ∈ observer_methods ->
      prop_of s' o a = prop_of s' o b -> a = b;
  con_touches : touches f s s';
  con_record : exists m, mock_at s f = Some m /\
      mock_at s' f = Some (MockState (impl m) (calls m ++ [args]) (results m ++ [o]))
}.

(** An environment whose global object has no [URL]. *)
Definition bare_env : state :=
  [ Object Ordinary {[ "document" := VRef 1 ]}; Object Ordinary ∅ ].

End Js.

(** ** Facts about the heap operations *)

Module Heap.
Import Js.

Lemma lookup_snoc (s : state) (o : object) (l : loc) :
  (s ++ [o]) !! l = if decide (l = length s) then Some o else s !! l.
Proof.
  case_decide as E.
  - subst. by rewrite lookup_app_r, Nat.sub_diag.
  - destruct (decide (l < length s)).
    + by rewrite lookup_app_l.
    + rewrite !lookup_ge_None_2; [done | lia |].
      rewrite length_app. simpl. lia.
Qed.

Lemma lookup_modify (s : state) (l l' : loc) (o o0 : object) :
  s !! l = Some o0 ->
  <[l := o]> s !! l' = if decide (l' = l) then Some o else s !! l'.
Proof.
  intros H. case_decide as E.
  - subst. apply list_lookup_insert_eq. by eapply lookup_lt_Some.
  - by apply list_lookup_insert_ne.
Qed.

Lemma own_prop_snoc s o l p :
  own_prop (s ++ [o]) l p =
    if decide (l = length s) then default VUndefined (props o !! p) else own_prop s l p.
Proof. unfold own_prop. rewrite lookup_snoc. by case_decide. Qed.

Lemma kind_at_snoc s o l :
  kind_at (s ++ [o]) l = if decide (l = length s) then Some (okind o) else kind_at s l.
Proof. unfold kind_at. rewrite lookup_snoc. by case_decide. Qed.

Lemma own_prop_modify s l l' o o0 p :
  s !! l = Some o0 ->
  own_prop (<[l := o]> s) l' p =
    if decide (l' = l) then default VUndefined (props o !! p) else own_prop s l' p.
Proof. intros H. unfold own_prop. rewrite (lookup_modify _ _ _ _ _ H). by case_decide. Qed.

Lemma kind_at_modify s l l' o o0 :
  s !! l = Some o0 ->
  kind_at (<[l := o]> s) l' = if decide (l' = l) then Some (okind o) else kind_at s l'.
Proof. intros H. unfold kind_at. rewrite (lookup_modify _ _ _ _ _ H). by case_decide. Qed.

Lemma own_prop_beyond s l p : length s <= l -> own_prop s l p = VUndefined.
Proof. intros H. unfold own_prop. by rewrite lookup_ge_None_2. Qed.

Lemma kind_at_beyond s l : length s <= l -> kind_at s l = None.
Proof. intros H. unfold kind_at. by rewrite lookup_ge_None_2. Qed.

Lemma kind_at_lt s l k : kind_at s l = Some k -> l < length s.
Proof.
  unfold kind_at. intros H. destruct (s !! l) eqn:E; [|done].
  by eapply lookup_lt_Some.
Qed.

Lemma own_prop_lt s l p : own_prop s l p <> VUndefined -> l < length s.
Proof.
  intros H. destruct (decide (l < length s)); [done|].
  exfalso. apply H. apply own_prop_beyond. lia.
Qed.

(** *** Binding a fresh mock to a property *)

Lemma set_prop_fresh l name i s s' :
  set_prop (VRef l) name (VRef (length s)) (s ++ [fresh_mock i]) = Returns tt s' ->
  installs l name i s s'.
Proof.
  unfold set_prop. destruct ((s ++ [fresh_mock i]) !! l) as [o|] eqn:E; [|done].
  intros [= <-].
  assert (Hl : l <= length s).
  { apply lookup_lt_Some in E. rewrite length_app in E. simpl in E. lia. }
  rewrite lookup_snoc in E.
  split.
  - rewrite length_insert, length_app. simpl. lia.
  - done.
  - erewrite own_prop_modify by (by rewrite lookup_snoc; apply E).
    rewrite decide_True by done. simpl. by rewrite lookup_insert_eq.
  - intros l' p Hne.
    erewrite own_prop_modify by (by rewrite lookup_snoc; apply E).
    rewrite own_prop_snoc. unfold own_prop.
    destruct (decide (l' = l)) as [->|E1], (decide (l = length s)) as [E2|E2];
      simplify_eq; simpl.
    + destruct Hne as [|Hp]; [done|].
      rewrite lookup_insert_ne by done.
      by rewrite lookup_ge_None_2 by lia.
    + destruct Hne as [|Hp]; [done|].
      rewrite lookup_insert_ne by done. by rewrite E.
    + destruct (decide (l' = length s)) as [->|E3]; [|done].
      simpl. by rewrite lookup_ge_None_2 by lia.
    + destruct (decide (l' = length s)) as [->|E3]; [|done].
      simpl. by rewrite lookup_ge_None_2 by lia.
  - erewrite kind_at_modify by (by rewrite lookup_snoc; apply E).
    rewrite kind_at_snoc.
    destruct (decide (length s = l)) as [<-|E1].
    + rewrite ?decide_True in E by done. rewrite ?decide_True by done.
      by simplify_eq.
    + rewrite ?decide_False by done. by rewrite ?decide_True by done.
  - intros l' Hne.
    erewrite kind_at_modify by (by rewrite lookup_snoc; apply E).
    rewrite kind_at_snoc, (decide_False (P := l' = length s)) by done.
    destruct (decide (l' = l)) as [->|E1]; [|done].
    rewrite decide_False in E by done.
    unfold kind_at. by rewrite E.
Qed.

Lemma set_prop_fresh_returns l name i s :
  l <= length s ->
  exists s', set_prop (VRef l) name (VRef (length s)) (s ++ [fresh_mock i]) = Returns tt s'.
Proof.
  intros Hl. unfold set_prop.
  destruct ((s ++ [fresh_mock i]) !! l) as [o|] eqn:E; [by eexists|].
  apply lookup_ge_None_1 in E. rewrite length_app in E. simpl in E. lia.
Qed.

(** [vi.fn().mockImplementation(c)] is [vi.fn(c)]. *)
Lemma mockImplementation_fresh c s :
  mockImplementation (VRef (length s)) c (s ++ [fresh_mock None]) =
    Returns (VRef (length s)) (s ++ [fresh_mock (Some c)]).
Proof.
  unfold mockImplementation. rewrite lookup_snoc, decide_True by done. simpl.
  f_equal. rewrite insert_app_r_alt by done. by rewrite Nat.sub_diag.
Qed.

Lemma get_global_returns name s :
  global < length s -> get_global name s = Returns (own_prop s global name) s.
Proof.
  intros H. unfold get_global, own_prop.
  destruct (s !! global) eqn:E; [done|].
  apply lookup_ge_None_1 in E. lia.
Qed.

Lemma get_global_throws name s :
  length s <= global -> exists e, get_global name s = Throws e.
Proof.
  intros H. unfold get_global. rewrite lookup_ge_None_2 by done. by eexists.
Qed.

End Heap.

(** ** The script, statement by statement *)

Module Script.
Import Js Heap.

(** The four assignments of the script, as four installations. *)
Lemma setupTests_steps s s' :
  setupTests s = Returns tt s' ->
  exists lu s1 s2 s3,
    own_prop s global "URL" = VRef lu /\
    installs lu "createObjectURL" (Some arrow_12) s s1 /\
    installs lu "revokeObjectURL" None s1 s2 /\
    installs global "ResizeObserver" (Some arrow_16) s2 s3 /\
    installs global "IntersectionObserver" (Some arrow_23) s3 s'.
Proof.
  intros H. unfold setupTests, bind in H.
  destruct (decide (global < length s)) as [Hg|Hg]; cycle 1.
  { destruct (get_global_throws "URL" s) as [e He]; [lia|]. by rewrite He in H. }
  rewrite get_global_returns in H by done.
  unfold vi_fn, alloc in H.
  destruct (own_prop s global "URL") as [| | | | |lu] eqn:Hu; try done.
  destruct (set_prop (VRef lu) _ _ _) as [[] s1|] eqn:E1; [|done].
  apply set_prop_fresh in E1.
  assert (Hu1 : own_prop s1 global "URL" = VRef lu).
  { rewrite (ins_props _ _ _ _ _ E1) by (by right). done. }
  rewrite get_global_returns in H by (rewrite (ins_length _ _ _ _ _ E1); lia).
  rewrite Hu1 in H.
  destruct (set_prop (VRef lu) _ _ _) as [[] s2|] eqn:E2; [|done].
  apply set_prop_fresh in E2.
  rewrite mockImplementation_fresh in H.
  destruct (set_prop (VRef global) _ _ _) as [[] s3|] eqn:E3; [|done].
  apply set_prop_fresh in E3.
  rewrite mockImplementation_fresh in H.
  apply set_prop_fresh in H.
  by exists lu, s1, s2, s3.
Qed.

(** The script returns whenever [global.URL] is an object (every property
    of which can be written, as for all objects here). *)
Lemma setupTests_returns s lu :
  own_prop s global "URL" = VRef lu -> lu <= length s ->
  exists s', setupTests s = Returns tt s'.
Proof.
  intros Hu Hlu.
  assert (Hg : global < length s) by (apply (own_prop_lt s global "URL"); by rewrite Hu).
  unfold setupTests, bind.
  rewrite get_global_returns by done. rewrite Hu.
  unfold vi_fn, alloc.
  destruct (set_prop_fresh_returns lu "createObjectURL" (Some arrow_12) s Hlu) as [s1 E1].
  rewrite E1. apply set_prop_fresh in E1.
  rewrite get_global_returns by (rewrite (ins_length _ _ _ _ _ E1); lia).
  rewrite (ins_props _ _ _ _ _ E1) by (by right). rewrite Hu.
  destruct (set_prop_fresh_returns lu "revokeObjectURL" None s1) as [s2 E2].
  { rewrite (ins_length _ _ _ _ _ E1). lia. }
  rewrite E2. apply set_prop_fresh in E2.
  rewrite mockImplementation_fresh.
  destruct (set_prop_fresh_returns global "ResizeObserver" (Some arrow_16) s2) as [s3 E3].
  { unfold global. lia. }
  rewrite E3. apply set_prop_fresh in E3.
  rewrite mockImplementation_fresh.
  destruct (set_prop_fresh_returns global "IntersectionObserver" (Some arrow_23) s3)
    as [s4 E4].
  { unfold global. lia. }
  rewrite E4. by eexists.
Qed.

Lemma setupTests_effect s s' :
  setupTests s = Returns tt s' -> exists lu, script_effect lu s s'.
Proof.
  intros H. apply setupTests_steps in H as (lu & s1 & s2 & s3 & Hu & E1 & E2 & E3 & E4).
  exists lu.
  pose proof (ins_length _ _ _ _ _ E1) as L1.
  pose proof (ins_length _ _ _ _ _ E2) as L2.
  pose proof (ins_length _ _ _ _ _ E3) as L3.
  pose proof (ins_length _ _ _ _ _ E4) as L4.
  assert (A1 : length s1 = length s + 1) by lia.
  assert (A2 : length s2 = length s + 2) by lia.
  assert (A3 : length s3 = length s + 3) by lia.
  split.
  - done.
  - apply (ins_target _ _ _ _ _ E1).
  - lia.
  - rewrite (ins_props _ _ _ _ _ E4), (ins_props _ _ _ _ _ E3),
      (ins_props _ _ _ _ _ E2), (ins_props _ _ _ _ _ E1) by (by right). done.
  - rewrite (ins_props _ _ _ _ _ E4), (ins_props _ _ _ _ _ E3),
      (ins_props _ _ _ _ _ E2) by (by right).
    apply (ins_bound _ _ _ _ _ E1).
  - rewrite (ins_props _ _ _ _ _ E4), (ins_props _ _ _ _ _ E3) by (by right).
    rewrite (ins_bound _ _ _ _ _ E2). by rewrite A1.
  - rewrite (ins_props _ _ _ _ _ E4) by (by right).
    rewrite (ins_bound _ _ _ _ _ E3). by rewrite A2.
  - rewrite (ins_bound _ _ _ _ _ E4). by rewrite A3.
  - rewrite (ins_old _ _ _ _ _ E4), (ins_old _ _ _ _ _ E3), (ins_old _ _ _ _ _ E2) by lia.
    apply (ins_new _ _ _ _ _ E1).
  - rewrite (ins_old _ _ _ _ _ E4), (ins_old _ _ _ _ _ E3) by lia.
    rewrite <- A1. apply (ins_new _ _ _ _ _ E2).
  - rewrite (ins_old _ _ _ _ _ E4) by lia.
    rewrite <- A2. apply (ins_new _ _ _ _ _ E3).
  - rewrite <- A3. apply (ins_new _ _ _ _ _ E4).
  - intros l p Hno. unfold overwritten in Hno.
    rewrite (ins_props _ _ _ _ _ E4), (ins_props _ _ _ _ _ E3),
      (ins_props _ _ _ _ _ E2), (ins_props _ _ _ _ _ E1); [done|..].
    + destruct (decide (l = lu)); [|by left].
      destruct (decide (p = "createObjectURL")); [|by right]. naive_solver.
    + destruct (decide (l = lu)); [|by left].
      destruct (decide (p = "revokeObjectURL")); [|by right]. naive_solver.
    + destruct (decide (l = global)); [|by left].
      destruct (decide (p = "ResizeObserver")); [|by right]. naive_solver.
    + destruct (decide (l = global)); [|by left].
      destruct (decide (p = "IntersectionObserver")); [|by right]. naive_solver.
  - intros l Hl.
    rewrite (ins_old _ _ _ _ _ E4), (ins_old _ _ _ _ _ E3),
      (ins_old _ _ _ _ _ E2), (ins_old _ _ _ _ _ E1) by lia. done.
Qed.

Lemma mock_at_kind s l m :
  kind_at s l = Some (Mock m) -> mock_at s (VRef l) = Some m.
Proof. intros H. unfold mock_at. by rewrite H. Qed.

Lemma script_effect_installed lu s s' : script_effect lu s s' -> installed s'.
Proof.
  intros E. split; unfold bound_mock, url_member.
  - rewrite (eff_url_kept _ _ _ E). simpl. rewrite (eff_create _ _ _ E).
    by rewrite (mock_at_kind _ _ _ (eff_mock_12 _ _ _ E)).
  - rewrite (eff_url_kept _ _ _ E). simpl. rewrite (eff_revoke _ _ _ E).
    by rewrite (mock_at_kind _ _ _ (eff_mock_13 _ _ _ E)).
  - rewrite (eff_resize _ _ _ E).
    by rewrite (mock_at_kind _ _ _ (eff_mock_16 _ _ _ E)).
  - rewrite (eff_intersection _ _ _ E).
    by rewrite (mock_at_kind _ _ _ (eff_mock_23 _ _ _ E)).
Qed.

Lemma setupTests_installed s s' : setupTests s = Returns tt s' -> installed s'.
Proof.
  intros H. apply setupTests_effect in H as [lu E].
  by eapply script_effect_installed.
Qed.

End Script.

(** ** Invoking mocks *)

Module Invoke.
Import Js Heap Script.

Lemma observer_literal_returns s :
  exists s', observer_literal s = Returns (VRef (length s)) s' /\ literal_effect s s'.
Proof.
  unfold observer_literal, bind, vi_fn, alloc, ret.
  set (s0 := s ++ [Object Ordinary ∅]).
  assert (L0 : length s0 = length s + 1) by (unfold s0; rewrite length_app; simpl; lia).
  destruct (set_prop_fresh_returns (length s) "observe" None s0) as [s1 E1]; [lia|].
  rewrite E1. apply set_prop_fresh in E1.
  pose proof (ins_length _ _ _ _ _ E1) as L1.
  destruct (set_prop_fresh_returns (length s) "unobserve" None s1) as [s2 E2]; [lia|].
  rewrite E2. apply set_prop_fresh in E2.
  pose proof (ins_length _ _ _ _ _ E2) as L2.
  destruct (set_prop_fresh_returns (length s) "disconnect" None s2) as [s3 E3]; [lia|].
  rewrite E3. apply set_prop_fresh in E3.
  pose proof (ins_length _ _ _ _ _ E3) as L3.
  assert (A1 : length s1 = length s + 2) by lia.
  assert (A2 : length s2 = length s + 3) by lia.
  exists s3. split; [done|]. split.
  - lia.
  - rewrite (ins_props _ _ _ _ _ E3), (ins_props _ _ _ _ _ E2) by (by right).
    rewrite (ins_bound _ _ _ _ _ E1). by rewrite L0.
  - rewrite (ins_props _ _ _ _ _ E3) by (by right).
    rewrite (ins_bound _ _ _ _ _ E2). by rewrite A1.
  - rewrite (ins_bound _ _ _ _ _ E3). by rewrite A2.
  - intros p Hp. unfold observer_methods in Hp.
    rewrite (ins_props _ _ _ _ _ E3), (ins_props _ _ _ _ _ E2),
      (ins_props _ _ _ _ _ E1) by (right; set_solver).
    unfold s0. rewrite own_prop_snoc, decide_True by done. done.
  - rewrite (ins_old _ _ _ _ _ E3), (ins_old _ _ _ _ _ E2), (ins_old _ _ _ _ _ E1) by lia.
    unfold s0. by rewrite kind_at_snoc, decide_True by done.
  - rewrite (ins_old _ _ _ _ _ E3), (ins_old _ _ _ _ _ E2) by lia.
    rewrite <- L0. apply (ins_new _ _ _ _ _ E1).
  - rewrite (ins_old _ _ _ _ _ E3) by lia.
    rewrite <- A1. apply (ins_new _ _ _ _ _ E2).
  - rewrite <- A2. apply (ins_new _ _ _ _ _ E3).
  - intros l p Hl.
    rewrite (ins_props _ _ _ _ _ E3), (ins_props _ _ _ _ _ E2),
      (ins_props _ _ _ _ _ E1) by (left; lia).
    unfold s0. rewrite own_prop_snoc, decide_False by lia. done.
  - intros l Hl.
    rewrite (ins_old _ _ _ _ _ E3), (ins_old _ _ _ _ _ E2), (ins_old _ _ _ _ _ E1) by lia.
    unfold s0. rewrite kind_at_snoc, decide_False by lia. done.
Qed.

Lemma kind_at_object s l k :
  kind_at s l = Some k -> exists o, s !! l = Some o /\ okind o = k.
Proof.
  unfold kind_at. destruct (s !! l) as [o|]; [|done].
  intros [= <-]. by exists o.
Qed.

(** Writing to the call record of the mock at [l]. *)
Lemma update_log g l s m :
  kind_at s l = Some (Mock m) ->
  (forall o, props (g o) = props o) ->
  exists s', update l g s = Returns tt s' /\
    forall k, (forall o, okind o = Mock m -> okind (g o) = k) -> relabels l k s s'.
Proof.
  intros Hk Hg. apply kind_at_object in Hk as (o & Ho & Hm).
  unfold update. rewrite Ho. eexists. split; [done|].
  intros k Hgk. split.
  - apply length_insert.
  - intros l' p. rewrite (own_prop_modify _ _ _ _ _ _ Ho).
    destruct (decide (l' = l)) as [->|]; [|done].
    rewrite Hg. unfold own_prop. by rewrite Ho.
  - rewrite (kind_at_modify _ _ _ _ _ Ho), decide_True by done.
    by rewrite (Hgk _ Hm).
  - intros l' Hne. by rewrite (kind_at_modify _ _ _ _ _ Ho), decide_False by done.
Qed.

Lemma log_call_props args o : props (log_call args o) = props o.
Proof. unfold log_call. by destruct (okind o). Qed.

Lemma log_result_props v o : props (log_result v o) = props o.
Proof. unfold log_result. by destruct (okind o). Qed.

Lemma log_call_kind args m o :
  okind o = Mock m ->
  okind (log_call args o) = Mock (MockState (impl m) (calls m ++ [args]) (results m)).
Proof. unfold log_call. by intros ->. Qed.

Lemma log_result_kind v m o :
  okind o = Mock m ->
  okind (log_result v o) = Mock (MockState (impl m) (calls m) (results m ++ [v])).
Proof. unfold log_result. by intros ->. Qed.

Lemma update_log_call args l s m :
  kind_at s l = Some (Mock m) ->
  exists s', update l (log_call args) s = Returns tt s' /\
    relabels l (Mock (MockState (impl m) (calls m ++ [args]) (results m))) s s'.
Proof.
  intros Hk.
  destruct (update_log (log_call args) l s m Hk (log_call_props args)) as (s' & E & R).
  exists s'. split; [done|]. apply R. intros o. apply log_call_kind.
Qed.

Lemma update_log_result v l s m :
  kind_at s l = Some (Mock m) ->
  exists s', update l (log_result v) s = Returns tt s' /\
    relabels l (Mock (MockState (impl m) (calls m) (results m ++ [v]))) s s'.
Proof.
  intros Hk.
  destruct (update_log (log_result v) l s m Hk (log_result_props v)) as (s' & E & R).
  exists s'. split; [done|]. apply R. intros o. apply log_result_kind.
Qed.

Lemma mock_at_inv s f m :
  mock_at s f = Some m -> exists l, f = VRef l /\ kind_at s l = Some (Mock m).
Proof.
  destruct f as [| | | | |l]; try done. simpl.
  destruct (kind_at s l) as [[|m']|] eqn:E; try done.
  intros [= <-]. by exists l.
Qed.

(** *** What invocations preserve *)

Lemma extends_refl n s : extends n s s.
Proof. by split. Qed.

Lemma extends_trans n s1 s2 s3 : extends n s1 s2 -> extends n s2 s3 -> extends n s1 s3.
Proof.
  intros [L1 P1 K1] [L2 P2 K2]. split.
  - lia.
  - intros l p Hl. by rewrite P2, P1.
  - intros l Hl. by rewrite K2, K1.
Qed.

Lemma extends_le n n' s s' : n' <= n -> extends n s s' -> extends n' s s'.
Proof.
  intros Hn [L P K]. split; [done| |].
  - intros l p Hl. apply P. lia.
  - intros l Hl. apply K. lia.
Qed.

Lemma extends_snoc s o : extends (length s) s (s ++ [o]).
Proof.
  split.
  - rewrite length_app. lia.
  - intros l p Hl. by rewrite own_prop_snoc, decide_False by lia.
  - intros l Hl. unfold shape_at. by rewrite kind_at_snoc, decide_False by lia.
Qed.

Lemma extends_literal s s' : literal_effect s s' -> extends (length s) s s'.
Proof.
  intros E. split.
  - rewrite (lit_length _ _ E). lia.
  - apply (lit_props _ _ E).
  - intros l Hl. unfold shape_at. by rewrite (lit_kinds _ _ E).
Qed.

Lemma extends_relabels n l k k0 s s' :
  relabels l k s s' -> kind_at s l = Some k0 -> erase k = erase k0 -> extends n s s'.
Proof.
  intros R Hk He. split.
  - rewrite (rel_length _ _ _ _ R). lia.
  - intros l' p _. apply (rel_props _ _ _ _ R).
  - intros l' _. unfold shape_at. destruct (decide (l' = l)) as [->|Hne].
    + rewrite (rel_self _ _ _ _ R), Hk. simpl. by rewrite He.
    + by rewrite (rel_other _ _ _ _ R).
Qed.

Lemma bound_mock_shape s l i :
  bound_mock s (VRef l) i <-> shape_at s l = Some (Mock (MockState i [] [])).
Proof.
  unfold bound_mock, shape_at, mock_at.
  destruct (kind_at s l) as [[|m]|]; simpl; [naive_solver| |naive_solver].
  split; intros [= <-]; done.
Qed.

Lemma bound_mock_ref s v i : bound_mock s v i -> exists l, v = VRef l /\ l < length s.
Proof.
  unfold bound_mock. destruct (mock_at s v) as [m|] eqn:E; [|done].
  intros _. apply mock_at_inv in E as (l & -> & Hk).
  exists l. split; [done|]. by eapply kind_at_lt.
Qed.

Lemma bound_mock_extends s s' v i :
  extends (length s) s s' -> bound_mock s v i -> bound_mock s' v i.
Proof.
  intros E H. destruct (bound_mock_ref _ _ _ H) as (l & -> & Hl).
  apply bound_mock_shape. rewrite (ext_shape _ _ _ E) by done.
  by apply bound_mock_shape.
Qed.

Lemma own_prop_extends s s' l p :
  extends (length s) s s' -> own_prop s l p <> VUndefined ->
  own_prop s' l p = own_prop s l p.
Proof. intros E H. apply (ext_props _ _ _ E). by eapply own_prop_lt. Qed.

Lemma bound_mock_defined s v i : bound_mock s v i -> v <> VUndefined.
Proof. intros H ->. by unfold bound_mock in H. Qed.

Lemma installed_extends s s' : installed s -> extends (length s) s s' -> installed s'.
Proof.
  intros [Hc Hr Hz Hi] E.
  assert (Hu : own_prop s' global "URL" = own_prop s global "URL").
  { apply own_prop_extends; [done|]. intros Hu.
    unfold url_member in Hc. rewrite Hu in Hc. by apply bound_mock_defined in Hc. }
  assert (Hm : forall name i, bound_mock s (url_member s name) i ->
                 bound_mock s' (url_member s' name) i).
  { intros name i H. unfold url_member in *. rewrite Hu.
    destruct (own_prop s global "URL") as [| | | | |lu];
      try (by apply bound_mock_defined in H).
    simpl in *. rewrite (own_prop_extends s s'); [by eapply bound_mock_extends|done|].
    by eapply bound_mock_defined. }
  assert (Hg : forall name i, bound_mock s (own_prop s global name) i ->
                 bound_mock s' (own_prop s' global name) i).
  { intros name i H. rewrite (own_prop_extends s s'); [by eapply bound_mock_extends|done|].
    by eapply bound_mock_defined. }
  split; auto.
Qed.

(** *** Calls and constructions *)

Lemma bound_mock_kind s l i c r :
  kind_at s l = Some (Mock (MockState i c r)) -> bound_mock s (VRef l) i.
Proof. intros H. unfold bound_mock. by rewrite (mock_at_kind _ _ _ H). Qed.

Lemma standin_of_literal l k s1 s5 s6 :
  literal_effect s1 s5 -> relabels l k s5 s6 -> l < length s1 ->
  observer_standin s6 (VRef (length s1)).
Proof.
  intros L R Hl. split.
  - exists (length s1). split; [done|].
    rewrite (rel_other _ _ _ _ R) by lia. apply (lit_object _ _ L).
  - intros name Hn. unfold observer_methods in Hn.
    rewrite !elem_of_cons, elem_of_nil in Hn. simpl.
    rewrite (rel_props _ _ _ _ R).
    destruct Hn as [->|[->|[->|[]]]].
    + rewrite (lit_observe _ _ L). eapply bound_mock_kind.
      rewrite (rel_other _ _ _ _ R) by lia. apply (lit_mock_1 _ _ L).
    + rewrite (lit_unobserve _ _ L). eapply bound_mock_kind.
      rewrite (rel_other _ _ _ _ R) by lia. apply (lit_mock_2 _ _ L).
    + rewrite (lit_disconnect _ _ L). eapply bound_mock_kind.
      rewrite (rel_other _ _ _ _ R) by lia. apply (lit_mock_3 _ _ L).
  - intros name Hn. simpl. rewrite (rel_props _ _ _ _ R). by apply (lit_only _ _ L).
Qed.

Lemma call_constant s f args m v :
  mock_at s f = Some m ->
  (forall t, run_impl (impl m) args t = Returns v t) ->
  exists s', call f args s = Returns v s' /\ recorded f args v s s'.
Proof.
  intros Hm Hrun. destruct (mock_at_inv _ _ _ Hm) as (l & -> & Hk).
  unfold call. rewrite Hm. unfold bind.
  destruct (update_log_call args l s m Hk) as (s1 & E1 & R1). rewrite E1, Hrun.
  destruct (update_log_result v l s1 _ (rel_self _ _ _ _ R1)) as (s2 & E2 & R2).
  rewrite E2. exists s2. split; [done|]. simpl in R2. split.
  - by rewrite (rel_length _ _ _ _ R2), (rel_length _ _ _ _ R1).
  - intros l' p. by rewrite (rel_props _ _ _ _ R2), (rel_props _ _ _ _ R1).
  - intros l' Hne. assert (l' <> l) by congruence.
    by rewrite (rel_other _ _ _ _ R2), (rel_other _ _ _ _ R1).
  - exists m. split; [done|]. apply mock_at_kind, (rel_self _ _ _ _ R2).
Qed.

Lemma call_observer s f args m :
  mock_at s f = Some m ->
  (forall t, run_impl (impl m) args t = observer_literal t) ->
  exists o s', call f args s = Returns o s' /\
    observer_standin s' o /\ extends (length s) s s'.
Proof.
  intros Hm Hrun. destruct (mock_at_inv _ _ _ Hm) as (l & -> & Hk).
  assert (Hl : l < length s) by (by eapply kind_at_lt).
  unfold call. rewrite Hm. unfold bind.
  destruct (update_log_call args l s m Hk) as (s1 & E1 & R1). rewrite E1, Hrun.
  pose proof (rel_length _ _ _ _ R1) as L1.
  destruct (observer_literal_returns s1) as (s5 & E5 & L5). rewrite E5.
  pose proof (rel_self _ _ _ _ R1) as Hk5.
  rewrite <- (lit_kinds _ _ L5) in Hk5 by lia.
  destruct (update_log_result (VRef (length s1)) l s5 _ Hk5) as (s6 & E6 & R6).
  rewrite E6. exists (VRef (length s1)), s6. split; [done|]. split.
  - eapply standin_of_literal; [done..|lia].
  - eapply extends_trans; [by eapply (extends_relabels _ _ _ _ _ _ R1)|].
    eapply extends_trans; [rewrite <- L1; by apply extends_literal|].
    by eapply (extends_relabels _ _ _ _ _ _ R6).
Qed.

Lemma instantiate_constant s f args m v :
  mock_at s f = Some m ->
  (forall t, run_impl (impl m) args t = Returns v t) ->
  is_ref v = false ->
  exists s', instantiate f args s = Returns (VRef (length s)) s' /\
    extends (length s) s s'.
Proof.
  intros Hm Hrun Hv. destruct (mock_at_inv _ _ _ Hm) as (l & -> & Hk).
  assert (Hl : l < length s) by (by eapply kind_at_lt).
  unfold instantiate. rewrite Hm. unfold bind, alloc.
  set (s0 := s ++ [Object Ordinary ∅]).
  assert (Hk0 : kind_at s0 l = Some (Mock m)).
  { unfold s0. by rewrite kind_at_snoc, decide_False by lia. }
  destruct (update_log_call args l s0 m Hk0) as (s1 & E1 & R1). rewrite E1, Hrun, Hv.
  destruct (update_log_result (VRef (length s)) l s1 _ (rel_self _ _ _ _ R1))
    as (s2 & E2 & R2).
  rewrite E2. exists s2. split; [done|].
  eapply extends_trans; [apply extends_snoc|].
  eapply extends_trans; [by eapply (extends_relabels _ _ _ _ _ _ R1)|].
  by eapply (extends_relabels _ _ _ _ _ _ R2 (rel_self _ _ _ _ R1)).
Qed.

Lemma instantiate_observer s f args m :
  mock_at s f = Some m ->
  (forall t, run_impl (impl m) args t = observer_literal t) ->
  exists o s', instantiate f args s = Returns o s' /\
    observer_standin s' o /\ extends (length s) s s'.
Proof.
  intros Hm Hrun. destruct (mock_at_inv _ _ _ Hm) as (l & -> & Hk).
  assert (Hl : l < length s) by (by eapply kind_at_lt).
  unfold instantiate. rewrite Hm. unfold bind, alloc.
  set (s0 := s ++ [Object Ordinary ∅]).
  assert (L0 : length s0 = length s + 1) by (unfold s0; rewrite length_app; simpl; lia).
  assert (Hk0 : kind_at s0 l = Some (Mock m)).
  { unfold s0. by rewrite kind_at_snoc, decide_False by lia. }
  destruct (update_log_call args l s0 m Hk0) as (s1 & E1 & R1). rewrite E1, Hrun.
  pose proof (rel_length _ _ _ _ R1) as L1.
  destruct (observer_literal_returns s1) as (s5 & E5 & L5). rewrite E5. simpl.
  pose proof (rel_self _ _ _ _ R1) as Hk5.
  rewrite <- (lit_kinds _ _ L5) in Hk5 by lia.
  destruct (update_log_result (VRef (length s1)) l s5 _ Hk5) as (s6 & E6 & R6).
  rewrite E6. exists (VRef (length s1)), s6. split; [done|]. split.
  - eapply standin_of_literal; [done..|lia].
  - eapply extends_trans; [apply extends_snoc|]. fold s0.
    eapply extends_trans; [by eapply (extends_relabels _ _ _ _ _ _ R1)|].
    eapply extends_trans.
    { eapply (extends_le (length s1)); [lia|]. by apply extends_literal. }
    by eapply (extends_relabels _ _ _ _ _ _ R6).
Qed.

Lemma impl_cases m args :
  (exists v, is_ref v = false /\ forall t, run_impl (impl m) args t = Returns v t) \/
  (forall t, run_impl (impl m) args t = observer_literal t).
Proof.
  destruct (impl m) as [[]|]; simpl.
  - left. by exists (VStr "mocked-url").
  - by right.
  - by right.
  - left. by exists VUndefined.
Qed.

Lemma recorded_extends n f args v s s' : recorded f args v s s' -> extends n s s'.
Proof.
  intros [L P O (m & Hm & Hm')]. split.
  - lia.
  - intros l p _. apply P.
  - intros l _. unfold shape_at.
    destruct (mock_at_inv _ _ _ Hm) as (lf & -> & Hk).
    destruct (mock_at_inv _ _ _ Hm') as (lf' & [= <-] & Hk').
    destruct (decide (l = lf)) as [->|Hne].
    + by rewrite Hk, Hk'.
    + rewrite O; [done|congruence].
Qed.

(** A mock never throws, called or constructed. *)
Lemma mock_call_returns s f args :
  is_Some (mock_at s f) ->
  exists v s', call f args s = Returns v s' /\ extends (length s) s s'.
Proof.
  intros [m Hm]. destruct (impl_cases m args) as [(v & _ & Hv)|Ho].
  - destruct (call_constant s f args m v Hm Hv) as (s' & E & R).
    exists v, s'. split; [done|]. by eapply recorded_extends.
  - destruct (call_observer s f args m Hm Ho) as (o & s' & E & _ & X).
    by exists o, s'.
Qed.

Lemma mock_instantiate_returns s f args :
  is_Some (mock_at s f) ->
  exists v s', instantiate f args s = Returns v s' /\ extends (length s) s s'.
Proof.
  intros [m Hm]. destruct (impl_cases m args) as [(v & Hr & Hv)|Ho].
  - destruct (instantiate_constant s f args m v Hm Hv Hr) as (s' & E & X).
    by exists (VRef (length s)), s'.
  - destruct (instantiate_observer s f args m Hm Ho) as (o & s' & E & _ & X).
    by exists o, s'.
Qed.

Lemma call_returns_mock s f args v s' :
  call f args s = Returns v s' -> is_Some (mock_at s f).
Proof.
  unfold call. destruct f as [| | | | |l]; try done.
  destruct (mock_at s (VRef l)); [by eexists|done].
Qed.

Lemma instantiate_returns_mock s f args v s' :
  instantiate f args s = Returns v s' -> is_Some (mock_at s f).
Proof.
  unfold instantiate. destruct f as [| | | | |l]; try done.
  destruct (mock_at s (VRef l)); [by eexists|done].
Qed.

(** [new] under the two releases. *)
Lemma construct_constructible f args s :
  construct arrows_constructible f args s = instantiate f args s.
Proof.
  unfold construct, instantiate.
  destruct (mock_at s f) eqn:E; [done|]. by destruct f.
Qed.

Lemma construct_returns r f args s v s' :
  construct r f args s = Returns v s' -> instantiate f args s = Returns v s'.
Proof.
  unfold construct. destruct (mock_at s f) as [m|]; [|done].
  by destruct r, (impl m).
Qed.

Lemma construct_arrow_throws s f args m c :
  mock_at s f = Some m -> impl m = Some c ->
  construct arrows_not_constructible f args s
    = Throws (TypeError "implementation is not a constructor").
Proof. intros Hm Hi. unfold construct. by rewrite Hm, Hi. Qed.

Lemma invocation_extends s s' : invocation s s' -> extends (length s) s s'.
Proof.
  intros (f & args & v & [H|[r H]]); [|apply construct_returns in H].
  - destruct (mock_call_returns s f args (call_returns_mock _ _ _ _ _ H))
      as (v' & t & E & X).
    rewrite E in H. by simplify_eq.
  - destruct (mock_instantiate_returns s f args (instantiate_returns_mock _ _ _ _ _ H))
      as (v' & t & E & X).
    rewrite E in H. by simplify_eq.
Qed.

Lemma invocations_extend s s' : rtc invocation s s' -> extends (length s) s s'.
Proof.
  induction 1 as [s|s1 s2 s3 H12 _ IH].
  - apply extends_refl.
  - apply invocation_extends in H12.
    eapply extends_trans; [done|].
    eapply extends_le; [|done]. apply (ext_length _ _ _ H12).
Qed.

Lemma installed_after s s' t :
  setupTests s = Returns tt s' -> rtc invocation s' t -> installed t.
Proof.
  intros H R. eapply installed_extends; [by eapply setupTests_installed|].
  by apply invocations_extend.
Qed.

End Invoke.

(** ** The configuration records *)

Module ConfigFacts.
Import Config.

Example ui_port : get_path ui_vite_config ["server"; "port"] = Some (JNum 3000).
Proof. reflexivity. Qed.

Example copy_has_no_esbuild : get_path copy_vite_config ["esbuild"] = None.
Proof. reflexivity. Qed.

Lemma lookup_field_In k fs j : lookup_field k fs = Some j -> In (k, j) fs.
Proof.
  induction fs as [|[k' v] fs IH]; simpl; [done|].
  destruct (lookup_field k fs) as [w|].
  - intros [= ->]. right. by apply IH.
  - destruct (String.eqb k k') eqn:E; [|done].
    apply String.eqb_eq in E as ->. intros [= ->]. by left.
Qed.

Lemma leaves_field k j fs p v :
  In (k, j) fs -> In (p, v) (leaves j) -> In (k :: p, v) (leaves (JObj fs)).
Proof.
  simpl. induction fs as [|[k' j'] fs IH]; simpl; [done|].
  intros [[= -> ->]|Hin] Hp; apply in_or_app.
  - left. apply in_map_iff. by exists (p, v).
  - right. by apply IH.
Qed.

(** Every leaf a path reaches is listed by [leaves]. *)
Lemma leaves_complete j p v :
  get_path j p = Some v -> is_leaf v = true -> In (p, v) (leaves j).
Proof.
  revert j. induction p as [|k p IH]; intros j H Hv; simpl in H.
  - injection H as ->. destruct v; try done; by left.
  - destruct j as [| | | | |fs|]; try done.
    destruct (lookup_field k fs) as [j'|] eqn:E; [|done].
    eapply leaves_field; [by apply lookup_field_In|]. by apply IH.
Qed.

(** C2: the configuration record exported by either file holds the listed
    literal values at the listed field paths: server.port = 3000,
    server.host = true, server.open = true, build.outDir = 'build',
    build.sourcemap = true, define.global = 'globalThis', the two aliases,
    the three pre-bundled dependencies, test.globals = true,
    test.environment = 'jsdom', test.setupFiles = './src/setupTests.js',
    test.css = true and test.server.deps.external = ['maplibre-gl']. *)
Theorem config_values_as_listed :
  has_listed_values ui_vite_config /\ has_listed_values copy_vite_config.
Proof. split; repeat split; reflexivity. Qed.

(** C3, as worded, fails: the two exported records do not agree at every
    field path, since [esbuild.loader] is set in one file only. *)
Lemma configs_differ_at_esbuild :
  ~ same_at_every_path ui_vite_config copy_vite_config.
Proof. intros H. specialize (H ["esbuild"; "loader"]). discriminate H. Qed.

(** C3, amended: the two exported records agree on every leaf of the copy,
    and every leaf of [src/ui/vite.config.js] is either the same in the
    copy or lies under [esbuild] or [optimizeDeps.esbuildOptions]. *)
Theorem configs_agree_outside_esbuild :
  (forall p v, is_leaf v = true ->
     get_path copy_vite_config p = Some v -> get_path ui_vite_config p = Some v) /\
  (forall p v, is_leaf v = true ->
     get_path ui_vite_config p = Some v ->
     get_path copy_vite_config p = Some v \/
     under ["esbuild"] p \/ under ["optimizeDeps"; "esbuildOptions"] p).
Proof.
  split; intros p v Hv H; apply leaves_complete in H; try done;
    vm_compute in H;
    repeat (destruct H as [H|H]; [injection H as <- <-|]); try done.
  all: first [ reflexivity
             | left; reflexivity
             | right; left; by eexists
             | right; right; by eexists ].
Qed.

Lemma configs_agree_witness :
  is_leaf (JNum 3000) = true /\
  get_path copy_vite_config ["server"; "port"] = Some (JNum 3000) /\
  get_path ui_vite_config ["server"; "port"] = Some (JNum 3000).
Proof.
  split; [reflexivity|]. split; [reflexivity|].
  apply (proj1 configs_agree_outside_esbuild ["server"; "port"] (JNum 3000));
    reflexivity.
Defined.

End ConfigFacts.

(** ** The bootstrap script *)

Module SetupFacts.
Import Js Heap Script Invoke.

Example sample_createObjectURL :
  value_of (call (url_member sample_ready "createObjectURL") [VStr "blob"]) sample_ready
  = Some (VStr "mocked-url").
Proof. vm_compute. reflexivity. Qed.

Example sample_env_has_no_ResizeObserver :
  own_prop sample_env global "ResizeObserver" = VUndefined.
Proof. vm_compute. reflexivity. Qed.

Example sample_revokeObjectURL :
  value_of (call (url_member sample_ready "revokeObjectURL") [VStr "blob"]) sample_ready
  = Some VUndefined.
Proof. vm_compute. reflexivity. Qed.

Example sample_observer_is_new : sample_observer = Some (VRef 11).
Proof. vm_compute. reflexivity. Qed.

Example sample_observe_returns_undefined :
  value_of (call sample_observe [VNum 1]) sample_observed = Some VUndefined.
Proof. vm_compute. reflexivity. Qed.

Example sample_observe_keeps_a_record :
  mock_at (state_after (call sample_observe [VNum 1]) sample_observed) sample_observe
  = Some (MockState None [[VNum 1]] [VUndefined]).
Proof. vm_compute. reflexivity. Qed.

Example sample_constructor_keeps_a_record :
  mock_at sample_observed (own_prop sample_observed global "ResizeObserver")
  = Some (MockState (Some arrow_16) [[]] [VRef 11]).
Proof. vm_compute. reflexivity. Qed.

(** Without [global.URL] the first assignment throws. *)
Example setupTests_needs_URL :
  setupTests [Object Ordinary {[ "document" := VRef 0 ]}]
  = Throws (TypeError "Cannot set properties of a non-object").
Proof. vm_compute. reflexivity. Qed.

Example call_of_a_string_throws :
  call (VStr "mocked-url") [] sample_ready = Throws (TypeError "not a function").
Proof. vm_compute. reflexivity. Qed.

Lemma bound_mock_inv s v i :
  bound_mock s v i -> exists m, mock_at s v = Some m /\ impl m = i.
Proof.
  unfold bound_mock. destruct (mock_at s v) as [m|]; [|done].
  intros [= <-]. by exists m.
Qed.


Lemma call_bound_constant s f args i v :
  bound_mock s f i ->
  (forall t, run_impl i args t = Returns v t) ->
  exists s', call f args s = Returns v s' /\ recorded f args v s s'.
Proof.
  intros H Hrun. apply bound_mock_inv in H as (m & Hm & <-).
  by apply (call_constant s f args m).
Qed.

Lemma instantiate_bound_observer s f args i :
  bound_mock s f i ->
  (forall t, run_impl i args t = observer_literal t) ->
  exists o s', instantiate f args s = Returns o s' /\
    observer_standin s' o /\ extends (length s) s s'.
Proof.
  intros H Hrun. apply bound_mock_inv in H as (m & Hm & <-).
  by apply (instantiate_observer s f args m).
Qed.

Lemma standin_extends s s' o :
  observer_standin s o -> extends (length s) s s' -> observer_standin s' o.
Proof.
  intros [(l & -> & Hk) Hm Ho] E.
  assert (Hl : l < length s) by (by eapply kind_at_lt).
  split.
  - exists l. split; [done|].
    pose proof (ext_shape _ _ _ E l Hl) as Hs. unfold shape_at in Hs.
    rewrite Hk in Hs. destruct (kind_at s' l) as [[|m]|]; by simplify_eq.
  - intros name Hn. simpl. rewrite (ext_props _ _ _ E) by done.
    eapply bound_mock_extends; [done|]. by apply Hm.
  - intros name Hn. simpl. rewrite (ext_props _ _ _ E) by done. by apply Ho.
Qed.

Lemma constructor_bound t name :
  installed t -> name ∈ ["ResizeObserver"; "IntersectionObserver"] ->
  exists i, bound_mock t (own_prop t global name) i /\
    forall args u, run_impl i args u = observer_literal u.
Proof.
  intros [_ _ Hz Hi] Hn. rewrite !elem_of_cons, elem_of_nil in Hn.
  destruct Hn as [->|[->|[]]]; eexists; (split; [done|]); done.
Qed.


Lemma constructor_arrow t name :
  installed t -> name ∈ ["ResizeObserver"; "IntersectionObserver"] ->
  exists m c, mock_at t (own_prop t global name) = Some m /\ impl m = Some c.
Proof.
  intros [_ _ Hz Hi] Hn. rewrite !elem_of_cons, elem_of_nil in Hn.
  destruct Hn as [->|[->|[]]].
  - apply bound_mock_inv in Hz as (m & Hm & Hc). by exists m, arrow_16.
  - apply bound_mock_inv in Hi as (m & Hm & Hc). by exists m, arrow_23.
Qed.






Ltac by_evaluation := vm_compute; reflexivity.

Ltac sample_invocation :=
  apply rtc_once;
  exists (url_member sample_ready "createObjectURL"), [VStr "blob"], (VStr "mocked-url");
  left; by_evaluation.

Lemma createObjectURL_returns_mocked_url s s' t args :
  setupTests s = Returns tt s' -> rtc invocation s' t ->
  exists t', call (url_member t "createObjectURL") args t
               = Returns (VStr "mocked-url") t'.
Proof.
  intros H R. destruct (installed_after _ _ _ H R) as [Hc _ _ _].
  destruct (call_bound_constant t _ args _ (VStr "mocked-url") Hc) as (t' & E & _);
    [done|]. by exists t'.
Qed.

(** C4: in the state the script leaves, and after any further invocations
    of function values, [URL.createObjectURL] returns ['mocked-url'] and
    [URL.revokeObjectURL] returns [undefined], whatever the arguments. *)
Theorem url_mocks_return_fixed_values s s' t args :
  setupTests s = Returns tt s' -> rtc invocation s' t ->
  (exists t', call (url_member t "createObjectURL") args t
                = Returns (VStr "mocked-url") t') /\
  (exists t', call (url_member t "revokeObjectURL") args t = Returns VUndefined t').
Proof.
  intros H R. destruct (installed_after _ _ _ H R) as [Hc Hr _ _]. split.
  - destruct (call_bound_constant t _ args _ (VStr "mocked-url") Hc) as (t' & E & _);
      [done|]. by exists t'.
  - destruct (call_bound_constant t _ args _ VUndefined Hr) as (t' & E & _);
      [done|]. by exists t'.
Qed.

Lemma url_mocks_witness :
  setupTests sample_env = Returns tt sample_ready /\
  rtc invocation sample_ready sample_used /\
  exists t', call (url_member sample_used "createObjectURL") [VNum 7; VNull] sample_used
               = Returns (VStr "mocked-url") t'.
Proof.
  assert (H : setupTests sample_env = Returns tt sample_ready) by by_evaluation.
  assert (R : rtc invocation sample_ready sample_used) by sample_invocation.
  split; [exact H|]. split; [exact R|].
  exact (proj1 (url_mocks_return_fixed_values
                  sample_env sample_ready sample_used [VNum 7; VNull] H R)).
Defined.

(** C5, as worded, fails under either release of the mock library, in the
    state the script leaves for the sample environment.  Where [new] runs
    an arrow implementation, the [observe] method of the observer it
    returns is not a no-op: the call is entered in the method's call record.
    Where it does not, [new ResizeObserver()] throws. *)
Lemma observers_are_not_no_ops :
  ~ observers_are_no_ops arrows_constructible sample_ready /\
  ~ observers_are_no_ops arrows_not_constructible sample_ready.
Proof.
  split; intros H;
    destruct (H "ResizeObserver" [] ltac:(constructor)) as (o & t & E & Hm).
  - vm_compute in E. injection E as <- <-.
    assert (Ho : "observe" ∈ observer_methods) by constructor.
    specialize (Hm "observe" Ho []).
    match type of Hm with
    | call ?f _ _ = _ =>
        apply (f_equal (fun r => match r with
                                 | Returns _ u => mock_at u f
                                 | Throws _ => None
                                 end)) in Hm
    end.
    vm_compute in Hm. discriminate Hm.
  - vm_compute in E. discriminate E.
Qed.

(** C5, amended: where the release of the mock library lets [new] run an
    arrow implementation, constructing the mocked [ResizeObserver] or
    [IntersectionObserver] returns, for every argument list, an object
    whose own properties are the methods [observe], [unobserve] and
    [disconnect]; each method, for every argument list and in every later
    state, returns [undefined], changes no property of any object and no
    other mock, and has the call appended to its own call record.  Where
    the release does not, [new] throws a TypeError. *)
Theorem observer_methods_only_record_calls s s' t args name :
  setupTests s = Returns tt s' -> rtc invocation s' t ->
  name ∈ ["ResizeObserver"; "IntersectionObserver"] ->
  (exists o t',
     construct arrows_constructible (own_prop t global name) args t = Returns o t' /\
     observer_standin t' o /\
     forall u method args',
       rtc invocation t' u -> method ∈ observer_methods ->
       exists m u',
         mock_at u (prop_of u o method) = Some m /\
         call (prop_of u o method) args' u = Returns VUndefined u' /\
         mock_at u' (prop_of u o method) =
           Some (MockState None (calls m ++ [args']) (results m ++ [VUndefined])) /\
         (forall l p, l < length u -> own_prop u' l p = own_prop u l p) /\
         (forall l, l < length u -> VRef l <> prop_of u o method ->
            kind_at u' l = kind_at u l)) /\
  (exists msg,
     construct arrows_not_constructible (own_prop t global name) args t
       = Throws (TypeError msg)).
Proof.
  intros H R Hn. pose proof (installed_after _ _ _ H R) as I. split.
  - destruct (constructor_bound t name I Hn) as (i & Hb & Hi).
    destruct (instantiate_bound_observer t _ args i Hb (Hi args))
      as (o & t' & E & S & _).
    exists o, t'. rewrite construct_constructible. split; [done|]. split; [done|].
    intros u method args' Ru Hm.
    pose proof (standin_extends _ _ _ S (invocations_extend _ _ Ru)) as Su.
    destruct (bound_mock_inv _ _ _ (obs_methods _ _ Su _ Hm)) as (m & Hmock & Himpl).
    destruct (call_constant u _ args' m VUndefined Hmock) as (u' & Eu & Rec);
      [by rewrite Himpl|].
    destruct (rec_self _ _ _ _ _ Rec) as (m0 & Hm0 & Hm1).
    rewrite Hmock in Hm0. injection Hm0 as <-. rewrite Himpl in Hm1.
    exists m, u'. split; [done|]. split; [done|]. split; [done|]. split.
    + intros l p _. apply (rec_props _ _ _ _ _ Rec).
    + intros l _ Hne. by apply (rec_other _ _ _ _ _ Rec).
  - destruct (constructor_arrow t name I Hn) as (m & c & Hm & Hc).
    eexists. by eapply construct_arrow_throws.
Qed.

Lemma observer_methods_witness :
  setupTests sample_env = Returns tt sample_ready /\
  rtc invocation sample_ready sample_used /\
  "ResizeObserver" ∈ ["ResizeObserver"; "IntersectionObserver"] /\
  exists o t',
    construct arrows_constructible
      (own_prop sample_used global "ResizeObserver") [VRef 2] sample_used
      = Returns o t' /\
    observer_standin t' o.
Proof.
  assert (H : setupTests sample_env = Returns tt sample_ready) by by_evaluation.
  assert (R : rtc invocation sample_ready sample_used) by sample_invocation.
  assert (N : "ResizeObserver" ∈ ["ResizeObserver"; "IntersectionObserver"])
    by constructor.
  split; [exact H|]. split; [exact R|]. split; [exact N|].
  destruct (proj1 (observer_methods_only_record_calls
              sample_env sample_ready sample_used [VRef 2] "ResizeObserver" H R N))
    as (o & t' & E & S & _).
  exists o, t'. split; [exact E | exact S].
Defined.

(** C6: the script writes four properties: [createObjectURL] and
    [revokeObjectURL] of the object [global.URL], and [ResizeObserver] and
    [IntersectionObserver] of the global object.  Each is bound to a mock
    that did not exist before; every other property of every object, and
    every object that existed before, is as it was. *)
Theorem setupTests_frame s s' :
  setupTests s = Returns tt s' ->
  exists lu,
    own_prop s global "URL" = VRef lu /\
    (forall l p, ~ overwritten lu l p -> own_prop s' l p = own_prop s l p) /\
    (forall l, l < length s -> kind_at s' l = kind_at s l) /\
    (forall l p, overwritten lu l p ->
       exists n, own_prop s' l p = VRef n /\ length s <= n /\
                 is_Some (mock_at s' (VRef n))).
Proof.
  intros H. apply setupTests_effect in H as [lu E]. exists lu.
  split; [apply (eff_url _ _ _ E)|].
  split; [apply (eff_frame _ _ _ E)|].
  split; [apply (eff_kinds _ _ _ E)|].
  intros l p [[-> [->| ->]]|[-> [->| ->]]].
  - exists (length s). rewrite (eff_create _ _ _ E).
    rewrite (mock_at_kind _ _ _ (eff_mock_12 _ _ _ E)). eauto.
  - exists (length s + 1). rewrite (eff_revoke _ _ _ E).
    rewrite (mock_at_kind _ _ _ (eff_mock_13 _ _ _ E)). split; [done|]. split; [lia|eauto].
  - exists (length s + 2). rewrite (eff_resize _ _ _ E).
    rewrite (mock_at_kind _ _ _ (eff_mock_16 _ _ _ E)). split; [done|]. split; [lia|eauto].
  - exists (length s + 3). rewrite (eff_intersection _ _ _ E).
    rewrite (mock_at_kind _ _ _ (eff_mock_23 _ _ _ E)). split; [done|]. split; [lia|eauto].
Qed.

Lemma setupTests_frame_witness :
  setupTests sample_env = Returns tt sample_ready /\
  own_prop sample_ready global "document" = own_prop sample_env global "document".
Proof.
  assert (H : setupTests sample_env = Returns tt sample_ready) by by_evaluation.
  split; [exact H|].
  destruct (setupTests_frame sample_env sample_ready H) as (lu & Hu & F & _).
  apply F. vm_compute in Hu. injection Hu as <-.
  unfold overwritten, global. intros [[? _]|[_ [?|?]]]; discriminate.
Defined.




(** C9: the value [URL.createObjectURL] returns does not depend on its
    arguments, nor on the invocations made before: any two calls, with any
    argument lists, in any two states reached from the one the script
    leaves, return the same value, ['mocked-url']. *)
Theorem createObjectURL_ignores_argument s s' t1 t2 x y :
  setupTests s = Returns tt s' -> rtc invocation s' t1 -> rtc invocation s' t2 ->
  exists v u1 u2,
    call (url_member t1 "createObjectURL") x t1 = Returns v u1 /\
    call (url_member t2 "createObjectURL") y t2 = Returns v u2 /\
    v = VStr "mocked-url".
Proof.
  intros H R1 R2.
  destruct (createObjectURL_returns_mocked_url s s' t1 x H R1) as [u1 E1].
  destruct (createObjectURL_returns_mocked_url s s' t2 y H R2) as [u2 E2].
  by exists (VStr "mocked-url"), u1, u2.
Qed.

Lemma createObjectURL_ignores_argument_witness :
  setupTests sample_env = Returns tt sample_ready /\
  rtc invocation sample_ready sample_ready /\
  rtc invocation sample_ready sample_used /\
  exists v u1 u2,
    call (url_member sample_ready "createObjectURL") [VNum 1] sample_ready
      = Returns v u1 /\
    call (url_member sample_used "createObjectURL") [VStr "secret"; VRef 3] sample_used
      = Returns v u2 /\
    v = VStr "mocked-url".
Proof.
  assert (H : setupTests sample_env = Returns tt sample_ready) by by_evaluation.
  assert (R1 : rtc invocation sample_ready sample_ready) by apply rtc_refl.
  assert (R2 : rtc invocation sample_ready sample_used) by sample_invocation.
  split; [exact H|]. split; [exact R1|]. split; [exact R2|].
  exact (createObjectURL_ignores_argument sample_env sample_ready
           sample_ready sample_used [VNum 1] [VStr "secret"; VRef 3] H R1 R2).
Defined.

(** C10: when the script has run once it can run again, and the four
    bindings then behave as after the first run: for every argument list
    [createObjectURL] returns the same value in both states, so does
    [revokeObjectURL], and [new] on each mocked constructor has the same
    outcome in both, under either release of the mock library: an observer
    stand-in in both, or the same TypeError in both. *)
Theorem setupTests_twice s s1 :
  setupTests s = Returns tt s1 ->
  exists s2,
    setupTests s1 = Returns tt s2 /\
    forall args,
      (exists v t1 t2,
         call (url_member s1 "createObjectURL") args s1 = Returns v t1 /\
         call (url_member s2 "createObjectURL") args s2 = Returns v t2) /\
      (exists v t1 t2,
         call (url_member s1 "revokeObjectURL") args s1 = Returns v t1 /\
         call (url_member s2 "revokeObjectURL") args s2 = Returns v t2) /\
      (forall name, name ∈ ["ResizeObserver"; "IntersectionObserver"] ->
         (exists o1 t1 o2 t2,
            construct arrows_constructible (own_prop s1 global name) args s1
              = Returns o1 t1 /\
            construct arrows_constructible (own_prop s2 global name) args s2
              = Returns o2 t2 /\
            observer_standin t1 o1 /\ observer_standin t2 o2) /\
         (exists e,
            construct arrows_not_constructible (own_prop s1 global name) args s1
              = Throws e /\
            construct arrows_not_constructible (own_prop s2 global name) args s2
              = Throws e)).
Proof.
  intros H1.
  destruct (setupTests_effect _ _ H1) as [lu E].
  destruct (setupTests_returns s1 lu) as [s2 H2].
  { apply (eff_url_kept _ _ _ E). }
  { pose proof (eff_url_valid _ _ _ E). rewrite (eff_length _ _ _ E). lia. }
  exists s2. split; [done|]. intros args.
  pose proof (setupTests_installed _ _ H1) as I1.
  pose proof (setupTests_installed _ _ H2) as I2.
  split; [|split].
  - destruct (call_bound_constant s1 _ args _ (VStr "mocked-url") (inst_create _ I1))
      as (t1 & E1 & _); [done|].
    destruct (call_bound_constant s2 _ args _ (VStr "mocked-url") (inst_create _ I2))
      as (t2 & E2 & _); [done|].
    by exists (VStr "mocked-url"), t1, t2.
  - destruct (call_bound_constant s1 _ args _ VUndefined (inst_revoke _ I1))
      as (t1 & E1 & _); [done|].
    destruct (call_bound_constant s2 _ args _ VUndefined (inst_revoke _ I2))
      as (t2 & E2 & _); [done|].
    by exists VUndefined, t1, t2.
  - intros name Hn. split.
    + destruct (constructor_bound s1 name I1 Hn) as (i1 & Hb1 & Hi1).
      destruct (constructor_bound s2 name I2 Hn) as (i2 & Hb2 & Hi2).
      destruct (instantiate_bound_observer s1 _ args i1 Hb1 (Hi1 args))
        as (o1 & t1 & E1 & S1 & _).
      destruct (instantiate_bound_observer s2 _ args i2 Hb2 (Hi2 args))
        as (o2 & t2 & E2 & S2 & _).
      exists o1, t1, o2, t2. by rewrite !construct_constructible.
    + destruct (constructor_arrow s1 name I1 Hn) as (m1 & c1 & Hm1 & Hc1).
      destruct (constructor_arrow s2 name I2 Hn) as (m2 & c2 & Hm2 & Hc2).
      eexists. split; by eapply construct_arrow_throws.
Qed.

Lemma setupTests_twice_witness :
  setupTests sample_env = Returns tt sample_ready /\
  exists s2, setupTests sample_ready = Returns tt s2.
Proof.
  assert (H : setupTests sample_env = Returns tt sample_ready) by by_evaluation.
  split; [exact H|].
  destruct (setupTests_twice sample_env sample_ready H) as (s2 & H2 & _).
  exists s2. exact H2.
Defined.

End SetupFacts.

(** ** Using the mocks: records, fresh observers, re-runs *)

Module Effects.
Import Js Heap Script Invoke SetupFacts.

Lemma run_impl_keeps i args s :
  exists v s', run_impl i args s = Returns v s' /\
    length s <= length s' /\
    (forall l p, l < length s -> own_prop s' l p = own_prop s l p) /\
    (forall l, l < length s -> kind_at s' l = kind_at s l).
Proof.
  destruct i as [[]|]; simpl.
  - by exists (VStr "mocked-url"), s.
  - destruct (observer_literal_returns s) as (s' & E & L).
    exists (VRef (length s)), s'. split; [done|].
    split; [rewrite (lit_length _ _ L); lia|].
    split; [apply (lit_props _ _ L)|apply (lit_kinds _ _ L)].
  - destruct (observer_literal_returns s) as (s' & E & L).
    exists (VRef (length s)), s'. split; [done|].
    split; [rewrite (lit_length _ _ L); lia|].
    split; [apply (lit_props _ _ L)|apply (lit_kinds _ _ L)].
  - by exists VUndefined, s.
Qed.


Lemma instantiate_touches s f args v s' :
  instantiate f args s = Returns v s' -> touches f s s'.
Proof.
  intros H. destruct (instantiate_returns_mock _ _ _ _ _ H) as [m Hm].
  destruct (mock_at_inv _ _ _ Hm) as (l & -> & Hk).
  assert (Hl : l < length s) by (by eapply kind_at_lt).
  unfold instantiate in H. rewrite Hm in H. unfold bind, alloc in H.
  set (s0 := s ++ [Object Ordinary ∅]) in H.
  assert (L0 : length s0 = length s + 1) by (unfold s0; rewrite length_app; simpl; lia).
  assert (Hk0 : kind_at s0 l = Some (Mock m)).
  { unfold s0. by rewrite kind_at_snoc, decide_False by lia. }
  destruct (update_log_call args l s0 m Hk0) as (s1 & E1 & R1). rewrite E1 in H.
  pose proof (rel_length _ _ _ _ R1) as L1.
  destruct (run_impl_keeps (impl m) args s1) as (v1 & s2 & E2 & L2 & P2 & K2).
  rewrite E2 in H.
  pose proof (rel_self _ _ _ _ R1) as Hk2. rewrite <- (K2 l) in Hk2 by lia.
  destruct (update_log_result (if is_ref v1 then v1 else VRef (length s)) l s2 _ Hk2)
    as (s3 & E3 & R3).
  rewrite E3 in H. unfold ret in H. injection H as <- <-.
  pose proof (rel_length _ _ _ _ R3) as L3. split.
  - lia.
  - intros l' p Hl'.
    rewrite (rel_props _ _ _ _ R3), P2, (rel_props _ _ _ _ R1) by lia.
    unfold s0. by rewrite own_prop_snoc, decide_False by lia.
  - intros l' Hl' Hne. assert (l' <> l) by congruence.
    rewrite (rel_other _ _ _ _ R3), K2, (rel_other _ _ _ _ R1) by (done || lia).
    unfold s0. by rewrite kind_at_snoc, decide_False by lia.
Qed.

Lemma instantiate_observer_effect s f args m :
  mock_at s f = Some m ->
  (forall t, run_impl (impl m) args t = observer_literal t) ->
  exists o s', instantiate f args s = Returns o s' /\ constructed f args o s s'.
Proof.
  intros Hm Hrun. destruct (mock_at_inv _ _ _ Hm) as (l & -> & Hk).
  assert (Hl : l < length s) by (by eapply kind_at_lt).
  destruct (instantiate (VRef l) args s) as [o s'|e] eqn:HC; cycle 1.
  { destruct (mock_instantiate_returns s (VRef l) args) as (? & ? & E & _); [by eexists|].
    by rewrite E in HC. }
  pose proof (instantiate_touches _ _ _ _ _ HC) as T.
  unfold instantiate in HC. rewrite Hm in HC. unfold bind, alloc in HC.
  set (s0 := s ++ [Object Ordinary ∅]) in HC.
  assert (L0 : length s0 = length s + 1) by (unfold s0; rewrite length_app; simpl; lia).
  assert (Hk0 : kind_at s0 l = Some (Mock m)).
  { unfold s0. by rewrite kind_at_snoc, decide_False by lia. }
  destruct (update_log_call args l s0 m Hk0) as (s1 & E1 & R1). rewrite E1, Hrun in HC.
  pose proof (rel_length _ _ _ _ R1) as L1.
  destruct (observer_literal_returns s1) as (s5 & E5 & L5). rewrite E5 in HC.
  simpl in HC.
  pose proof (rel_self _ _ _ _ R1) as Hk5.
  rewrite <- (lit_kinds _ _ L5) in Hk5 by lia.
  destruct (update_log_result (VRef (length s1)) l s5 _ Hk5) as (s6 & E6 & R6).
  rewrite E6 in HC. unfold ret in HC. injection HC as <- <-.
  exists (VRef (length s1)), s6. split; [done|].
  assert (Hmeth : forall name, name ∈ observer_methods ->
            exists k, 1 <= k <= 3 /\ own_prop s6 (length s1) name = VRef (length s1 + k) /\
              (k = 1 <-> name = "observe") /\ (k = 2 <-> name = "unobserve") /\
              kind_at s6 (length s1 + k) = Some (Mock (MockState None [] []))).
  { intros name Hn. unfold observer_methods in Hn.
    rewrite !elem_of_cons, elem_of_nil in Hn. rewrite (rel_props _ _ _ _ R6).
    destruct Hn as [->|[->|[->|[]]]].
    - exists 1. rewrite (lit_observe _ _ L5), (rel_other _ _ _ _ R6) by lia.
      rewrite (lit_mock_1 _ _ L5). repeat split; (done || lia).
    - exists 2. rewrite (lit_unobserve _ _ L5), (rel_other _ _ _ _ R6) by lia.
      rewrite (lit_mock_2 _ _ L5). repeat split; (done || lia).
    - exists 3. rewrite (lit_disconnect _ _ L5), (rel_other _ _ _ _ R6) by lia.
      rewrite (lit_mock_3 _ _ L5). repeat split; (done || lia). }
  split.
  - exists (length s1). split; [done|lia].
  - eapply standin_of_literal; [done..|lia].
  - intros name Hn. destruct (Hmeth name Hn) as (k & Hk1 & Hp & _ & _ & Hkind).
    exists (length s1 + k). simpl. split; [done|]. split; [lia|].
    by apply mock_at_kind.
  - intros a b Ha Hb. simpl.
    destruct (Hmeth a Ha) as (ka & Hka & -> & A1 & A2 & _).
    destruct (Hmeth b Hb) as (kb & Hkb & -> & B1 & B2 & _).
    intros [= Hab]. assert (ka = kb) as -> by lia.
    unfold observer_methods in Ha, Hb.
    rewrite !elem_of_cons, elem_of_nil in Ha, Hb.
    destruct Ha as [->|[->|[->|[]]]], Hb as [->|[->|[->|[]]]]; try done;
      first [ by apply A1 in B1 | by apply A2 in B2
            | by (destruct A1 as [_ A1]; specialize (A1 eq_refl);
                  destruct B1 as [B1 _]; specialize (B1 A1))
            | by (destruct A2 as [_ A2]; specialize (A2 eq_refl);
                  destruct B2 as [B2 _]; specialize (B2 A2))
            | by (destruct B1 as [_ B1]; specialize (B1 eq_refl);
                  destruct A1 as [A1 _]; specialize (A1 B1))
            | by (destruct B2 as [_ B2]; specialize (B2 eq_refl);
                  destruct A2 as [A2 _]; specialize (A2 B2)) ].
  - done.
  - exists m. split; [done|]. apply mock_at_kind. apply (rel_self _ _ _ _ R6).
Qed.

(** Calls of a mock with a constant result, one after the other. *)
Lemma call_each_constant argss : forall s f m v,
  mock_at s f = Some m ->
  (forall args t, run_impl (impl m) args t = Returns v t) ->
  exists s',
    call_each f argss s = Returns tt s' /\
    mock_at s' f =
      Some (MockState (impl m) (calls m ++ argss)
              (results m ++ replicate (length argss) v)) /\
    length s' = length s /\
    (forall l p, own_prop s' l p = own_prop s l p) /\
    (forall l, VRef l <> f -> kind_at s' l = kind_at s l).
Proof.
  induction argss as [|args rest IH]; intros s f m v Hm Hrun; simpl.
  - exists s. rewrite !app_nil_r. by destruct m.
  - unfold bind.
    destruct (call_constant s f args m v Hm (Hrun args)) as (s1 & E1 & R1).
    rewrite E1. destruct (rec_self _ _ _ _ _ R1) as (m0 & Hm0 & Hm1).
    rewrite Hm in Hm0. injection Hm0 as <-.
    destruct (IH s1 f _ v Hm1 Hrun) as (s2 & E2 & Hm2 & L2 & P2 & K2).
    exists s2. split; [done|]. simpl in Hm2. split; [|split; [|split]].
    + rewrite Hm2. by rewrite <- !app_assoc.
    + by rewrite L2, (rec_length _ _ _ _ _ R1).
    + intros l p. by rewrite P2, (rec_props _ _ _ _ _ R1).
    + intros l Hne. by rewrite K2, (rec_other _ _ _ _ _ R1).
Qed.

Lemma installed_url t :
  installed t ->
  exists lu, own_prop t global "URL" = VRef lu /\ lu < length t /\ global < length t.
Proof.
  intros [Hc _ _ _]. unfold url_member in Hc.
  destruct (own_prop t global "URL") as [| | | | |lu] eqn:Hu;
    try (by apply bound_mock_defined in Hc).
  exists lu. split; [done|]. split.
  - apply (own_prop_lt t lu "createObjectURL"). by eapply bound_mock_defined.
  - apply (own_prop_lt t global "URL"). by rewrite Hu.
Qed.

Lemma url_member_same s s' name :
  (forall l p, own_prop s' l p = own_prop s l p) ->
  url_member s' name = url_member s name.
Proof.
  intros P. unfold url_member. rewrite P.
  destruct (own_prop s global "URL"); simpl; by rewrite ?P.
Qed.

(** X1: when [global.URL] is [undefined], [null] or a primitive, the script
    does not return: it throws a TypeError. *)
Theorem setupTests_throws_without_URL s :
  global < length s ->
  is_ref (own_prop s global "URL") = false ->
  exists msg, setupTests s = Throws (TypeError msg).
Proof.
  intros Hg Hu. unfold setupTests, bind.
  rewrite get_global_returns by done. unfold vi_fn, alloc.
  destruct (own_prop s global "URL"); try done; by eexists.
Qed.

Lemma setupTests_throws_without_URL_witness :
  global < length bare_env /\
  is_ref (own_prop bare_env global "URL") = false /\
  exists msg, setupTests bare_env = Throws (TypeError msg).
Proof.
  assert (Hg : global < length bare_env) by (vm_compute; lia).
  assert (Hu : is_ref (own_prop bare_env global "URL") = false) by by_evaluation.
  split; [exact Hg|]. split; [exact Hu|].
  exact (setupTests_throws_without_URL bare_env Hg Hu).
Defined.

(** X3: the call records of [URL.createObjectURL] and [URL.revokeObjectURL]
    grow by exactly the calls made: after one call for each argument list
    of [argss], in order, [mock.calls] has gained [argss] and
    [mock.results] one ['mocked-url'] (one [undefined]) per call. *)
Theorem url_mocks_record_calls s s' t argss :
  setupTests s = Returns tt s' -> rtc invocation s' t ->
  (exists m u,
     mock_at t (url_member t "createObjectURL") = Some m /\
     call_each (url_member t "createObjectURL") argss t = Returns tt u /\
     mock_at u (url_member u "createObjectURL") =
       Some (MockState (Some arrow_12) (calls m ++ argss)
               (results m ++ replicate (length argss) (VStr "mocked-url")))) /\
  (exists m u,
     mock_at t (url_member t "revokeObjectURL") = Some m /\
     call_each (url_member t "revokeObjectURL") argss t = Returns tt u /\
     mock_at u (url_member u "revokeObjectURL") =
       Some (MockState None (calls m ++ argss)
               (results m ++ replicate (length argss) VUndefined))).
Proof.
  intros H R. destruct (installed_after _ _ _ H R) as [Hc Hr _ _]. split.
  - apply bound_mock_inv in Hc as (m & Hm & Hi).
    destruct (call_each_constant argss t _ m (VStr "mocked-url") Hm)
      as (u & E & Hu & _ & P & _); [by rewrite Hi|].
    exists m, u. split; [done|]. split; [done|].
    by rewrite (url_member_same t u) by done; rewrite Hu, Hi.
  - apply bound_mock_inv in Hr as (m & Hm & Hi).
    destruct (call_each_constant argss t _ m VUndefined Hm)
      as (u & E & Hu & _ & P & _); [by rewrite Hi|].
    exists m, u. split; [done|]. split; [done|].
    by rewrite (url_member_same t u) by done; rewrite Hu, Hi.
Qed.

Lemma url_mocks_record_calls_witness :
  setupTests sample_env = Returns tt sample_ready /\
  rtc invocation sample_ready sample_used /\
  exists m u,
    mock_at sample_used (url_member sample_used "createObjectURL") = Some m /\
    call_each (url_member sample_used "createObjectURL") [[VNum 1]; []] sample_used
      = Returns tt u /\
    mock_at u (url_member u "createObjectURL") =
      Some (MockState (Some arrow_12) (calls m ++ [[VNum 1]; []])
              (results m ++ replicate 2 (VStr "mocked-url"))).
Proof.
  assert (H : setupTests sample_env = Returns tt sample_ready) by by_evaluation.
  assert (R : rtc invocation sample_ready sample_used) by sample_invocation.
  split; [exact H|]. split; [exact R|].
  exact (proj1 (url_mocks_record_calls
                  sample_env sample_ready sample_used [[VNum 1]; []] H R)).
Defined.

Lemma instantiate_installed t name args :
  installed t -> name ∈ ["ResizeObserver"; "IntersectionObserver"] ->
  exists o t',
    instantiate (own_prop t global name) args t = Returns o t' /\
    constructed (own_prop t global name) args o t t' /\
    own_prop t' global name = own_prop t global name.
Proof.
  intros I Hn. destruct (constructor_bound t name I Hn) as (i & Hb & Hi).
  apply bound_mock_inv in Hb as (m & Hm & <-).
  destruct (instantiate_observer_effect t _ args m Hm (Hi args)) as (o & t' & E & C).
  exists o, t'. split; [done|]. split; [done|].
  apply (tou_props _ _ _ (con_touches _ _ _ _ _ C)).
  by destruct (installed_url t I) as (_ & _ & _ & ?).
Qed.

(** X4: where the release of the mock library lets [new] run an arrow
    implementation, each construction is entered in the constructor's call
    record: [mock.calls] gains the argument list and [mock.results] the
    observer returned, so a test can read back the callback it passed and
    the instance it got. *)
Theorem construction_is_recorded s s' t name args :
  setupTests s = Returns tt s' -> rtc invocation s' t ->
  name ∈ ["ResizeObserver"; "IntersectionObserver"] ->
  exists o t' m,
    mock_at t (own_prop t global name) = Some m /\
    construct arrows_constructible (own_prop t global name) args t = Returns o t' /\
    mock_at t' (own_prop t' global name) =
      Some (MockState (impl m) (calls m ++ [args]) (results m ++ [o])).
Proof.
  intros H R Hn. pose proof (installed_after _ _ _ H R) as I.
  destruct (instantiate_installed t name args I Hn) as (o & t' & E & C & Hp).
  destruct (con_record _ _ _ _ _ C) as (m & Hm & Hm').
  exists o, t', m. rewrite Hp, construct_constructible. by repeat split.
Qed.

Lemma construction_is_recorded_witness :
  setupTests sample_env = Returns tt sample_ready /\
  rtc invocation sample_ready sample_used /\
  "IntersectionObserver" ∈ ["ResizeObserver"; "IntersectionObserver"] /\
  exists o t' m,
    mock_at sample_used (own_prop sample_used global "IntersectionObserver") = Some m /\
    construct arrows_constructible
      (own_prop sample_used global "IntersectionObserver") [VRef 4] sample_used
      = Returns o t' /\
    mock_at t' (own_prop t' global "IntersectionObserver") =
      Some (MockState (impl m) (calls m ++ [[VRef 4]]) (results m ++ [o])).
Proof.
  assert (H : setupTests sample_env = Returns tt sample_ready) by by_evaluation.
  assert (R : rtc invocation sample_ready sample_used) by sample_invocation.
  assert (N : "IntersectionObserver" ∈ ["ResizeObserver"; "IntersectionObserver"])
    by (right; left).
  split; [exact H|]. split; [exact R|]. split; [exact N|].
  exact (construction_is_recorded sample_env sample_ready sample_used
           "IntersectionObserver" [VRef 4] H R N).
Defined.

(** X5: where the release of the mock library lets [new] run an arrow
    implementation, every construction makes a new observer: an object
    that did not exist before, whose three methods are three different
    mocks that did not exist before either, each with an empty call
    record. *)
Theorem observers_are_fresh s s' t name args :
  setupTests s = Returns tt s' -> rtc invocation s' t ->
  name ∈ ["ResizeObserver"; "IntersectionObserver"] ->
  exists l t',
    construct arrows_constructible (own_prop t global name) args t
      = Returns (VRef l) t' /\
    length t <= l /\
    (forall method, method ∈ observer_methods ->
       exists n, own_prop t' l method = VRef n /\ length t <= n /\
                 mock_at t' (VRef n) = Some (MockState None [] [])) /\
    (forall a b, a ∈ observer_methods -> b ∈ observer_methods ->
       own_prop t' l a = own_prop t' l b -> a = b).
Proof.
  intros H R Hn. pose proof (installed_after _ _ _ H R) as I.
  destruct (instantiate_installed t name args I Hn) as (o & t' & E & C & _).
  destruct (con_new _ _ _ _ _ C) as (l & -> & Hl).
  exists l, t'. rewrite construct_constructible.
  split; [done|]. split; [done|]. split.
  - apply (con_methods _ _ _ _ _ C).
  - apply (con_distinct _ _ _ _ _ C).
Qed.

Lemma observers_are_fresh_witness :
  setupTests sample_env = Returns tt sample_ready /\
  rtc invocation sample_ready sample_used /\
  "ResizeObserver" ∈ ["ResizeObserver"; "IntersectionObserver"] /\
  exists l t',
    construct arrows_constructible
      (own_prop sample_used global "ResizeObserver") [] sample_used
      = Returns (VRef l) t' /\
    length sample_used <= l.
Proof.
  assert (H : setupTests sample_env = Returns tt sample_ready) by by_evaluation.
  assert (R : rtc invocation sample_ready sample_used) by sample_invocation.
  assert (N : "ResizeObserver" ∈ ["ResizeObserver"; "IntersectionObserver"])
    by constructor.
  split; [exact H|]. split; [exact R|]. split; [exact N|].
  destruct (observers_are_fresh sample_env sample_ready sample_used
              "ResizeObserver" [] H R N) as (l & t' & E & Hl & _).
  exists l, t'. split; [exact E|exact Hl].
Defined.





(** X8: the four mocks the script installs are four different objects. *)
Theorem installed_mocks_are_distinct s s' :
  setupTests s = Returns tt s' ->
  NoDup [ url_member s' "createObjectURL"; url_member s' "revokeObjectURL";
          own_prop s' global "ResizeObserver";
          own_prop s' global "IntersectionObserver" ].
Proof.
  intros H. destruct (setupTests_effect _ _ H) as [lu E].
  unfold url_member. rewrite (eff_url_kept _ _ _ E). simpl.
  rewrite (eff_create _ _ _ E), (eff_revoke _ _ _ E), (eff_resize _ _ _ E),
    (eff_intersection _ _ _ E).
  repeat (apply NoDup_cons; split;
          [rewrite ?elem_of_cons, ?elem_of_nil; intros Hin;
           repeat (destruct Hin as [Hin|Hin]; [injection Hin; lia|]); done|]).
  apply NoDup_nil_2.
Qed.

Lemma installed_mocks_are_distinct_witness :
  setupTests sample_env = Returns tt sample_ready /\
  NoDup [ url_member sample_ready "createObjectURL";
          url_member sample_ready "revokeObjectURL";
          own_prop sample_ready global "ResizeObserver";
          own_prop sample_ready global "IntersectionObserver" ].
Proof.
  assert (H : setupTests sample_env = Returns tt sample_ready) by by_evaluation.
  split; [exact H|].
  exact (installed_mocks_are_distinct sample_env sample_ready H).
Defined.

End Effects.

(** ** Keys of the configuration literals *)

Module ConfigKeys.
Import Config ConfigFacts.

Lemma lookup_field_absent k fs :
  existsb (String.eqb k) (map fst fs) = false -> lookup_field k fs = None.
Proof.
  induction fs as [|[k' v] fs IH]; simpl; [done|].
  intros H. apply orb_false_iff in H as [Hk Hrest].
  by rewrite (IH Hrest), Hk.
Qed.

Lemma distinct_keys_lookup k j fs :
  distinct_keys (JObj fs) = true -> In (k, j) fs ->
  lookup_field k fs = Some j /\ distinct_keys j = true.
Proof.
  induction fs as [|[k' v] fs IH]; simpl; [done|].
  intros H Hin. apply andb_true_iff in H as [H Hrest].
  apply andb_true_iff in H as [Hk Hv]. apply negb_true_iff in Hk.
  destruct Hin as [[= -> ->]|Hin].
  - rewrite (lookup_field_absent _ _ Hk), String.eqb_refl. done.
  - destruct (IH Hrest Hin) as [-> ?]. done.
Qed.

Lemma leaves_object fs p v :
  In (p, v) (leaves (JObj fs)) ->
  exists k p' j, p = k :: p' /\ In (k, j) fs /\ In (p', v) (leaves j).
Proof.
  simpl. induction fs as [|[k j] fs IH]; simpl; [done|].
  intros H. apply in_app_or in H as [H|H].
  - apply in_map_iff in H as ([p' v'] & [= <- <-] & Hin).
    exists k, p', j. auto.
  - destruct (IH H) as (k' & p' & j' & -> & Hin & Hl).
    exists k', p', j'. auto.
Qed.

(** With distinct keys, every listed leaf is what its path reads. *)
Lemma leaves_sound p : forall j v,
  distinct_keys j = true -> In (p, v) (leaves j) ->
  get_path j p = Some v /\ is_leaf v = true.
Proof.
  induction p as [|k p IH]; intros j v Hd Hin.
  - destruct j; simpl in Hin;
      try (destruct Hin as [[= <-]|[]]; done).
    apply leaves_object in Hin as (? & ? & ? & ? & _). done.
  - destruct j as [| | | | |fs|]; simpl in Hin;
      try (destruct Hin as [[=]|[]]).
    apply leaves_object in Hin as (k' & p' & j' & [= <- <-] & Hf & Hl).
    destruct (distinct_keys_lookup _ _ _ Hd Hf) as [Hlk Hd'].
    simpl. rewrite Hlk. by apply IH.
Qed.

(** X9: neither configuration file writes a key twice in any of its object
    literals, so no setting overrides another: the settings written in a
    file, leaf by leaf, are exactly what reading the exported record by
    field path gives. *)
Theorem config_keys_written_once :
  distinct_keys ui_vite_config = true /\
  distinct_keys copy_vite_config = true /\
  (forall p v, In (p, v) (leaves ui_vite_config) <->
     get_path ui_vite_config p = Some v /\ is_leaf v = true) /\
  (forall p v, In (p, v) (leaves copy_vite_config) <->
     get_path copy_vite_config p = Some v /\ is_leaf v = true).
Proof.
  assert (Hu : distinct_keys ui_vite_config = true) by reflexivity.
  assert (Hc : distinct_keys copy_vite_config = true) by reflexivity.
  split; [done|]. split; [done|]. split; intros p v; split.
  - by apply leaves_sound.
  - intros [H Hv]. by apply leaves_complete.
  - by apply leaves_sound.
  - intros [H Hv]. by apply leaves_complete.
Qed.

End ConfigKeys.
